(** * cellcanvas: the training / prediction / embedding-selection core of
    [src/cellcanvas/app.py], as a shallow embedding.

    The application object [CellCanvasApp] becomes a record of its attributes;
    its methods become computations in a state-and-exception monad over that
    record.  Arrays are flat C-order lists with their shape, the way
    [reshape(-1, ...)] and [flatten()] see them in the source.  The libraries
    the program calls (numpy's float kernel, scikit-learn, scikit-image,
    matplotlib's [Path]) are an interface the development is parametric in. *)

From Stdlib Require Import ZArith List Floats Lia Bool Arith.
From stdpp Require Import base option list sorting gmap strings pretty.

Set Default Proof Using "Type".
Open Scope nat_scope.

(* ===================================================================== *)
(** * Python results: a value or a raised exception *)
(* ===================================================================== *)

Inductive exn : Type :=
| AttributeError
| TypeError
| ValueError
| IndexError.

Inductive result (A : Type) : Type :=
| Ok (a : A)
| Raise (e : exn).
Arguments Ok {A} a.
Arguments Raise {A} e.

Definition is_ok {A} (r : result A) : bool :=
  match r with Ok _ => true | Raise _ => false end.

(** A method of an object with state [S]: it returns or raises, and the
    mutations made before a raise stay. *)
Definition M (S A : Type) : Type := S -> result A * S.

Definition ret {S A} (a : A) : M S A := fun s => (Ok a, s).
Definition raise {S A} (e : exn) : M S A := fun s => (Raise e, s).
Definition bind {S A B} (m : M S A) (k : A -> M S B) : M S B :=
  fun s => match m s with
           | (Ok a, s') => k a s'
           | (Raise e, s') => (Raise e, s')
           end.
Definition get {S} : M S S := fun s => (Ok s, s).
Definition modify {S} (f : S -> S) : M S unit := fun s => (Ok tt, f s).
Definition lift {S A} (r : result A) : M S A := fun s => (r, s).

Declare Scope py_scope.
Delimit Scope py_scope with py.
Notation "x <~ m ;; k" := (bind m (fun x => k))
  (at level 100, m at next level, right associativity) : py_scope.
Notation "m ;;; k" := (bind m (fun _ => k))
  (at level 100, right associativity) : py_scope.

(** [for x in xs: body x] *)
Fixpoint for_each {S A} (xs : list A) (body : A -> M S unit) : M S unit :=
  match xs with
  | [] => ret tt
  | x :: xs' => bind (body x) (fun _ => for_each xs' body)
  end.

(* ===================================================================== *)
(** * numpy: shapes, flat indices, three-dimensional arrays *)
(* ===================================================================== *)

Module Np.

Definition shape3 : Type := nat * nat * nat.
Definition index3 : Type := nat * nat * nat.

Definition size (s : shape3) : nat := let '(a, b, c) := s in a * b * c.

Definition in_bounds (s : shape3) (i : index3) : bool :=
  let '(a, b, c) := s in let '(z, y, x) := i in
  (z <? a) && (y <? b) && (x <? c).

(** Position of element [i] in the C-order flattening of an array of shape [s]. *)
Definition ravel_multi_index (i : index3) (s : shape3) : nat :=
  let '(_, b, c) := s in let '(z, y, x) := i in (z * b + y) * c + x.

(** [np.unravel_index(n, s)]: peel the last axis first; out of range raises. *)
Definition unravel (n : nat) (s : shape3) : index3 :=
  let '(_, b, c) := s in ((n / c) / b, (n / c) mod b, n mod c).

Definition unravel_index (n : nat) (s : shape3) : result index3 :=
  if n <? size s then Ok (unravel n s) else Raise ValueError.

(** All indices of an array of shape [s], slowest axis first ([np.ndindex]). *)
Definition ndindex (s : shape3) : list index3 :=
  let '(a, b, c) := s in
  flat_map (fun i => flat_map (fun j => map (fun k => (i, j, k)) (seq 0 c)) (seq 0 b))
           (seq 0 a).

(** A three-dimensional array: its shape and its elements in C order. *)
Record ndarray (A : Type) : Type := mk_ndarray { shape : shape3; data : list A }.
Arguments mk_ndarray {A} shape data.
Arguments shape {A} _.
Arguments data {A} _.

Definition wf {A} (a : ndarray A) : Prop := length (data a) = size (shape a).

(** [a.reshape(s)] of a flat array. *)
Definition reshape {A} (l : list A) (s : shape3) : result (ndarray A) :=
  if length l =? size s then Ok (mk_ndarray s l) else Raise ValueError.

(** [a[z, y, x]] *)
Definition getitem {A} (a : ndarray A) (i : index3) : result A :=
  if in_bounds (shape a) i then
    match data a !! ravel_multi_index i (shape a) with
    | Some v => Ok v
    | None => Raise IndexError
    end
  else Raise IndexError.

(** [a[z, y, x] = v]; an index outside the array raises. *)
Definition setitem {A} (a : ndarray A) (i : index3) (v : A) : result (ndarray A) :=
  if in_bounds (shape a) i then
    Ok (mk_ndarray (shape a) (<[ravel_multi_index i (shape a) := v]> (data a)))
  else Raise IndexError.

Definition rev3 (i : index3) : index3 := let '(a, b, c) := i in (c, b, a).

(** The elements [d] of an array of shape [s] after [a[i] = v] was done for
    every [i] of [idxs] in turn. *)
Definition written {A} (s : shape3) (v : A) (d : list A) (idxs : list index3)
  : list A :=
  foldl (fun d i => <[ravel_multi_index i s := v]> d) d idxs.

(** [np.transpose(a)] of a three-dimensional array reverses the axes. *)
Definition transpose {A} (a : ndarray A) : ndarray A :=
  let '(n0, n1, n2) := shape a in
  mk_ndarray (n2, n1, n0)
    (omap (fun '(k, j, i) => data a !! ravel_multi_index (i, j, k) (n0, n1, n2))
          (ndindex (n2, n1, n0))).

(** [l[mask]] for a boolean mask: the selected elements in order; a mask of
    another length raises. *)
Fixpoint select {A} (mask : list bool) (l : list A) : list A :=
  match mask, l with
  | b :: mask', x :: l' => if b then x :: select mask' l' else select mask' l'
  | _, _ => []
  end.

Definition mask_index {A} (l : list A) (mask : list bool) : result (list A) :=
  if length mask =? length l then Ok (select mask l) else Raise IndexError.

(** [np.where(mask)[0]] of a flat mask: the positions that hold [True]. *)
Definition where_flat (mask : list bool) : list nat :=
  select mask (seq 0 (length mask)).

(** [np.where(mask)] of a three-dimensional mask: the index triples. *)
Definition where3 (mask : ndarray bool) : list index3 :=
  select (data mask) (ndindex (shape mask)).

(** [np.unique(l, return_counts=True)]: the sorted distinct values, and how
    often each occurs. *)
Definition unique (l : list Z) : list Z := merge_sort Z.le (remove_dups l).

Definition count (v : Z) (l : list Z) : nat := length (filter (fun x => x = v) l).

Definition unique_counts (l : list Z) : list Z * list nat :=
  (unique l, map (fun v => count v l) (unique l)).

(** [np.meshgrid(np.arange(n0), np.arange(n1), np.arange(n2), indexing='ij')]
    followed by [np.vstack([X.ravel(), Y.ravel(), Z.ravel()]).T]: one row per
    grid point, the first argument varying slowest. *)
Definition meshgrid_ij_rows (n0 n1 n2 : nat) : list (nat * nat * nat) :=
  flat_map (fun i => flat_map (fun j => map (fun k => (i, j, k)) (seq 0 n2)) (seq 0 n1))
           (seq 0 n0).

End Np.

Import Np.

(* ===================================================================== *)
(** * The libraries the program calls *)
(* ===================================================================== *)

(** [F] is the type of floating-point scalars.  The fields are the library
    functions the source calls, with the arguments it passes them. *)
Class External (F : Type) : Type := {
  (** numpy *)
  np_median : list F -> F;
  np_sub : F -> F -> F;
  np_square : F -> F;
  np_sum : list F -> F;
  np_sqrt : F -> F;
  np_percentile : list F -> Z -> F;
  np_lt : F -> F -> bool;
  np_argmin : list F -> nat;
  (** [sklearn.utils.class_weight.compute_class_weight("balanced", classes, y)] *)
  Weight : Type;
  compute_class_weight : list Z -> list Z -> list Weight;
  (** fitted classifiers; [fit] with the constructor arguments of the source *)
  Model : Type;
  RandomForestClassifier_fit : gmap Z Weight -> list (list F) -> list Z -> Model;
  XGBClassifier_fit : list (list F) -> list Z -> list (option Weight) -> Model;
  clf_predict : Model -> list (list F) -> list Z;
  (** [sklearn.cross_decomposition.PLSRegression(n_components=2)] *)
  PLSRegression : Type;
  pls_fit : list (list F) -> list Z -> PLSRegression;
  pls_transform : PLSRegression -> list (list F) -> list (F * F);
  (** [matplotlib.path.Path] *)
  Path : Type;
  contains_point : Path -> F * F -> bool;
}.

(* ===================================================================== *)
(** * The application object *)
(* ===================================================================== *)

(** A feature array of shape [(z, y, x, f)], kept as its rows
    [reshape(-1, shape[-1])]: one feature vector per voxel, in C order. *)
Record feature_volume (F : Type) : Type := mk_features {
  fv_shape : shape3;
  fv_nfeat : nat;
  fv_rows : list (list F);
}.
Arguments mk_features {F} _ _ _.
Arguments fv_shape {F} _.
Arguments fv_nfeat {F} _.
Arguments fv_rows {F} _.

Definition fv_wf {F} (f : feature_volume F) : Prop :=
  length (fv_rows f) = size (fv_shape f).

(** What a background worker was created to run. *)
Inductive job (F : Type) : Type :=
| FitJob (model_type : string) (features : feature_volume F) (labels : ndarray Z)
| PredictJob (features : feature_volume F).
Arguments FitJob {F} _ _ _.
Arguments PredictJob {F} _.

Record worker (F : Type) : Type := mk_worker {
  w_job : job F;
  w_abort_requested : bool;
  w_started : bool;
}.
Arguments mk_worker {F} _ _ _.
Arguments w_job {F} _.
Arguments w_abort_requested {F} _.
Arguments w_started {F} _.

(** What the program prints or logs. *)
Inductive message : Type :=
| NoLabelsPresent            (* "No labels present. Skipping model update." *)
| NotEnoughLabeledData       (* "Not enough labeled data to create an embedding plot. ..." *)
| EstimatingBackground       (* "Estimating background label" *)
| LabelingBackground (n : nat) (* "Labeling n pixels as background" *)
| Painted (n : nat) (label : Z) (* "Painted n pixels with label l" *)
| Clicked (coordinate : nat * nat * nat) (* "... Image space coordinate: c" *)
| Debug (s : string).

(** The widget state the core reads. *)
Record widget : Type := mk_widget {
  model_dropdown : string;       (* "Random Forest" or "XGBoost" *)
  live_pred_checkbox : bool;
  selected_label : Z;            (* the painting layer's active label *)
}.

Section App.
Context {F : Type} {E : External F}.

(** The attributes of [CellCanvasApp].  An attribute the constructor does
    not assign is [None] until a method assigns it (reading it before
    raises [AttributeError]); an attribute that may hold Python's [None]
    has an [option] of its own. *)
Record CellCanvasApp : Type := mk_app {
  feature_data_tomotwin : feature_volume F;
  painting_data : ndarray Z;
  prediction_data : ndarray Z;
  prediction_labels : option (list Z);
  prediction_counts : option (list nat);
  model : option Model;
  features : option (option (feature_volume F));
  labels : option (ndarray Z);
  model_type : option string;
  model_fit_worker : option nat;
  prediction_worker : option nat;
  workers : list (worker F);
  pls : option PLSRegression;
  pls_embedding : option (list (F * F));
  filtered_coords : option (list (nat * nat * nat));
  embedding_figure : list ((F * F) * Z);
  the_widget : widget;
  log : list message;
}.

Definition set_painting_data v (a : CellCanvasApp) : CellCanvasApp :=
  mk_app (feature_data_tomotwin a) v (prediction_data a) (prediction_labels a)
    (prediction_counts a) (model a) (features a) (labels a) (model_type a)
    (model_fit_worker a) (prediction_worker a) (workers a) (pls a) (pls_embedding a)
    (filtered_coords a) (embedding_figure a) (the_widget a) (log a).
Definition set_prediction_data v (a : CellCanvasApp) : CellCanvasApp :=
  mk_app (feature_data_tomotwin a) (painting_data a) v (prediction_labels a)
    (prediction_counts a) (model a) (features a) (labels a) (model_type a)
    (model_fit_worker a) (prediction_worker a) (workers a) (pls a) (pls_embedding a)
    (filtered_coords a) (embedding_figure a) (the_widget a) (log a).
Definition set_prediction_labels v (a : CellCanvasApp) : CellCanvasApp :=
  mk_app (feature_data_tomotwin a) (painting_data a) (prediction_data a) v
    (prediction_counts a) (model a) (features a) (labels a) (model_type a)
    (model_fit_worker a) (prediction_worker a) (workers a) (pls a) (pls_embedding a)
    (filtered_coords a) (embedding_figure a) (the_widget a) (log a).
Definition set_prediction_counts v (a : CellCanvasApp) : CellCanvasApp :=
  mk_app (feature_data_tomotwin a) (painting_data a) (prediction_data a) (prediction_labels a)
    v (model a) (features a) (labels a) (model_type a)
    (model_fit_worker a) (prediction_worker a) (workers a) (pls a) (pls_embedding a)
    (filtered_coords a) (embedding_figure a) (the_widget a) (log a).
Definition set_model v (a : CellCanvasApp) : CellCanvasApp :=
  mk_app (feature_data_tomotwin a) (painting_data a) (prediction_data a) (prediction_labels a)
    (prediction_counts a) v (features a) (labels a) (model_type a)
    (model_fit_worker a) (prediction_worker a) (workers a) (pls a) (pls_embedding a)
    (filtered_coords a) (embedding_figure a) (the_widget a) (log a).
Definition set_features v (a : CellCanvasApp) : CellCanvasApp :=
  mk_app (feature_data_tomotwin a) (painting_data a) (prediction_data a) (prediction_labels a)
    (prediction_counts a) (model a) v (labels a) (model_type a)
    (model_fit_worker a) (prediction_worker a) (workers a) (pls a) (pls_embedding a)
    (filtered_coords a) (embedding_figure a) (the_widget a) (log a).
Definition set_labels v (a : CellCanvasApp) : CellCanvasApp :=
  mk_app (feature_data_tomotwin a) (painting_data a) (prediction_data a) (prediction_labels a)
    (prediction_counts a) (model a) (features a) v (model_type a)
    (model_fit_worker a) (prediction_worker a) (workers a) (pls a) (pls_embedding a)
    (filtered_coords a) (embedding_figure a) (the_widget a) (log a).
Definition set_model_type v (a : CellCanvasApp) : CellCanvasApp :=
  mk_app (feature_data_tomotwin a) (painting_data a) (prediction_data a) (prediction_labels a)
    (prediction_counts a) (model a) (features a) (labels a) v
    (model_fit_worker a) (prediction_worker a) (workers a) (pls a) (pls_embedding a)
    (filtered_coords a) (embedding_figure a) (the_widget a) (log a).
Definition set_model_fit_worker v (a : CellCanvasApp) : CellCanvasApp :=
  mk_app (feature_data_tomotwin a) (painting_data a) (prediction_data a) (prediction_labels a)
    (prediction_counts a) (model a) (features a) (labels a) (model_type a)
    v (prediction_worker a) (workers a) (pls a) (pls_embedding a)
    (filtered_coords a) (embedding_figure a) (the_widget a) (log a).
Definition set_prediction_worker v (a : CellCanvasApp) : CellCanvasApp :=
  mk_app (feature_data_tomotwin a) (painting_data a) (prediction_data a) (prediction_labels a)
    (prediction_counts a) (model a) (features a) (labels a) (model_type a)
    (model_fit_worker a) v (workers a) (pls a) (pls_embedding a)
    (filtered_coords a) (embedding_figure a) (the_widget a) (log a).
Definition set_workers v (a : CellCanvasApp) : CellCanvasApp :=
  mk_app (feature_data_tomotwin a) (painting_data a) (prediction_data a) (prediction_labels a)
    (prediction_counts a) (model a) (features a) (labels a) (model_type a)
    (model_fit_worker a) (prediction_worker a) v (pls a) (pls_embedding a)
    (filtered_coords a) (embedding_figure a) (the_widget a) (log a).
Definition set_pls v (a : CellCanvasApp) : CellCanvasApp :=
  mk_app (feature_data_tomotwin a) (painting_data a) (prediction_data a) (prediction_labels a)
    (prediction_counts a) (model a) (features a) (labels a) (model_type a)
    (model_fit_worker a) (prediction_worker a) (workers a) v (pls_embedding a)
    (filtered_coords a) (embedding_figure a) (the_widget a) (log a).
Definition set_pls_embedding v (a : CellCanvasApp) : CellCanvasApp :=
  mk_app (feature_data_tomotwin a) (painting_data a) (prediction_data a) (prediction_labels a)
    (prediction_counts a) (model a) (features a) (labels a) (model_type a)
    (model_fit_worker a) (prediction_worker a) (workers a) (pls a) v
    (filtered_coords a) (embedding_figure a) (the_widget a) (log a).
Definition set_filtered_coords v (a : CellCanvasApp) : CellCanvasApp :=
  mk_app (feature_data_tomotwin a) (painting_data a) (prediction_data a) (prediction_labels a)
    (prediction_counts a) (model a) (features a) (labels a) (model_type a)
    (model_fit_worker a) (prediction_worker a) (workers a) (pls a) (pls_embedding a)
    v (embedding_figure a) (the_widget a) (log a).
Definition set_embedding_figure v (a : CellCanvasApp) : CellCanvasApp :=
  mk_app (feature_data_tomotwin a) (painting_data a) (prediction_data a) (prediction_labels a)
    (prediction_counts a) (model a) (features a) (labels a) (model_type a)
    (model_fit_worker a) (prediction_worker a) (workers a) (pls a) (pls_embedding a)
    (filtered_coords a) v (the_widget a) (log a).
Definition set_log v (a : CellCanvasApp) : CellCanvasApp :=
  mk_app (feature_data_tomotwin a) (painting_data a) (prediction_data a) (prediction_labels a)
    (prediction_counts a) (model a) (features a) (labels a) (model_type a)
    (model_fit_worker a) (prediction_worker a) (workers a) (pls a) (pls_embedding a)
    (filtered_coords a) (embedding_figure a) (the_widget a) v.

Local Open Scope py_scope.
Local Abbreviation Py := (M CellCanvasApp).

Definition print (m : message) : Py unit :=
  modify (fun a => set_log (log a ++ [m]) a).

(** Read an attribute that the constructor may not have assigned. *)
Definition attr {A} (read : CellCanvasApp -> option A) : Py A :=
  a <~ get ;;
  match read a with
  | Some v => ret v
  | None => raise AttributeError
  end.

(* --------------------------------------------------------------------- *)
(** ** Training: [update_model] and its worker *)
(* --------------------------------------------------------------------- *)

(** The first lines of [update_model]: flatten, keep the rows whose label is
    greater than 0, and shift the kept labels down by one. *)
Definition training_set (labels : ndarray Z) (features : feature_volume F)
  : result (list (list F) * list Z) :=
  let labels := data labels in                       (* labels.flatten() *)
  let reshaped_features := fv_rows features in
  let valid_labels := map (fun l => (0 <? l)%Z) labels in
  match mask_index reshaped_features valid_labels with
  | Raise e => Raise e
  | Ok filtered_features =>
      match mask_index labels valid_labels with
      | Raise e => Raise e
      | Ok kept => Ok (filtered_features, map (fun l => (l - 1)%Z) kept)
      end
  end.

Definition update_model (labels : ndarray Z) (features : feature_volume F)
    (model_type : string) : Py (option Model) :=
  filtered <~ lift (training_set labels features) ;;
  let '(filtered_features, filtered_labels) := filtered in
  if length filtered_labels =? 0 then
    print NoLabelsPresent ;;;
    ret None
  else
    let unique_labels := unique filtered_labels in
    let class_weights := compute_class_weight unique_labels filtered_labels in
    let weight_dict : gmap Z Weight := list_to_map (zip unique_labels class_weights) in
    let sample_weights := map (fun l => weight_dict !! l) filtered_labels in
    if String.eqb model_type "Random Forest" then
      ret (Some (RandomForestClassifier_fit weight_dict filtered_features filtered_labels))
    else if String.eqb model_type "XGBoost" then
      ret (Some (XGBClassifier_fit filtered_features filtered_labels sample_weights))
    else raise ValueError.

Definition model_fit_thread (model_type : string) (features : feature_volume F)
    (labels : ndarray Z) : Py (option Model) :=
  update_model labels features model_type.

(* --------------------------------------------------------------------- *)
(** ** Prediction: [predict] and its worker *)
(* --------------------------------------------------------------------- *)

(** [skimage.future.predict_segmenter(features2d, clf)] is
    [clf.predict(features2d).reshape(sh[:-1])]; on [None] the attribute
    [predict] is missing. *)
Definition predict_segmenter (rows : list (list F)) (clf : option Model)
  : result (list Z) :=
  match clf with
  | None => Raise AttributeError
  | Some m =>
      let predicted_labels := clf_predict m rows in
      if length predicted_labels =? length rows then Ok predicted_labels
      else Raise ValueError
  end.

Definition predict (model : option Model) (features : feature_volume F)
  : Py (ndarray Z * list Z * list nat) :=
  flat <~ lift (predict_segmenter (fv_rows features) model) ;;
  shaped <~ lift (reshape flat (fv_shape features)) ;;
  let prediction := mk_ndarray (shape shaped) (map (fun c => (c + 1)%Z) (data shaped)) in
  let '(prediction_labels, prediction_counts) := unique_counts (data prediction) in
  ret (transpose prediction, prediction_labels, prediction_counts).

(** The worker body reads [self.model] when it runs. *)
Definition prediction_thread (features : feature_volume F)
  : Py (ndarray Z * list Z * list nat) :=
  a <~ get ;;
  predict (model a) features.

Definition get_features : Py (feature_volume F) :=
  current <~ attr features ;;
  match current with
  | None =>
      a <~ get ;;
      modify (set_features (Some (Some (feature_data_tomotwin a)))) ;;;
      ret (feature_data_tomotwin a)
  | Some f => ret f
  end.

(** [worker.quit()]: a function worker only records the request. *)
Definition quit (w : nat) : Py unit :=
  modify (fun a => set_workers
    (alter (fun x => mk_worker (w_job x) true (w_started x)) w (workers a)) a).

(** Creating a worker object for a job; its handle is its position. *)
Definition create_worker (j : job F) : Py nat :=
  a <~ get ;;
  modify (set_workers (workers a ++ [mk_worker j false false])) ;;;
  ret (length (workers a)).

Definition start (w : nat) : Py unit :=
  modify (fun a => set_workers
    (alter (fun x => mk_worker (w_job x) (w_abort_requested x) true) w (workers a)) a).

Definition start_prediction : Py unit :=
  a <~ get ;;
  match prediction_worker a with
  | Some w => quit w
  | None => ret tt
  end ;;;
  features <~ get_features ;;
  w <~ create_worker (PredictJob features) ;;
  modify (set_prediction_worker (Some w)) ;;;
  start w.

(** The slot of a prediction worker's [returned] signal.  Handing the new
    array to the viewer layer and redrawing the charts is left out. *)
Definition on_prediction_completed (result : ndarray Z * list Z * list nat)
  : Py unit :=
  let '(prediction, prediction_labels, prediction_counts) := result in
  print (Debug "on_prediction_completed") ;;;
  modify (set_prediction_data (transpose prediction)) ;;;
  modify (set_prediction_labels (Some prediction_labels)) ;;;
  modify (set_prediction_counts (Some prediction_counts)).

(* --------------------------------------------------------------------- *)
(** ** Starting a fit and receiving its result *)
(* --------------------------------------------------------------------- *)

Definition get_model_type : Py string :=
  a <~ get ;;
  match model_type a with
  | Some (String c s) => ret (String c s)
  | _ =>
      let t := model_dropdown (the_widget a) in
      modify (set_model_type (Some t)) ;;;
      ret t
  end.

(** [prepare_data_for_model] with the data choice "Whole Image", the only
    value [get_data_choice] ever yields: copies of the whole feature array
    and of the whole painting. *)
Definition prepare_data_for_model : Py (feature_volume F * ndarray Z) :=
  a <~ get ;;
  ret (feature_data_tomotwin a, painting_data a).

Definition start_model_fit : Py unit :=
  a <~ get ;;
  match model_fit_worker a with
  | Some w => quit w
  | None => ret tt
  end ;;;
  prepared <~ prepare_data_for_model ;;
  let '(features, labels) := prepared in
  modify (set_features (Some (Some features))) ;;;
  modify (set_labels (Some labels)) ;;;
  model_type <~ get_model_type ;;
  w <~ create_worker (FitJob model_type features labels) ;;
  modify (set_model_fit_worker (Some w)) ;;;
  start w.

(** [self.prepared_features] is assigned nowhere, so the chained call raises
    before [start_prediction] is entered. *)
Definition on_model_fit_completed (model' : option Model) : Py unit :=
  print (Debug "on_model_fit_completed") ;;;
  modify (set_model model') ;;;
  a <~ get ;;
  if live_pred_checkbox (the_widget a) && bool_decide (is_Some (model a)) then
    print (Debug "live prediction is active, prediction triggered by model fit completion.") ;;;
    raise AttributeError
  else ret tt.

(* --------------------------------------------------------------------- *)
(** ** Background estimation *)
(* --------------------------------------------------------------------- *)

(** Feature [j] of every voxel. *)
Definition column (j : nat) (rows : list (list F)) : list F :=
  omap (fun row => row !! j) rows.

(** [np.median(embedding_data, axis=(0, 1, 2))] *)
Definition median_embedding (embedding_data : feature_volume F) : list F :=
  map (fun j => np_median (column j (fv_rows embedding_data)))
      (seq 0 (fv_nfeat embedding_data)).

(** [np.sqrt(np.sum((embedding_data - median_embedding) ** 2, axis=-1))],
    flattened. *)
Definition background_distances (embedding_data : feature_volume F) : list F :=
  let median := median_embedding embedding_data in
  map (fun row => np_sqrt (np_sum (map np_square (zip_with np_sub row median))))
      (fv_rows embedding_data).

(** [np.percentile(distances.flatten(), 1)] *)
Definition background_threshold (embedding_data : feature_volume F) : F :=
  np_percentile (background_distances embedding_data) 1.

(** [distances < threshold] *)
Definition background_mask (embedding_data : feature_volume F) : ndarray bool :=
  let threshold := background_threshold embedding_data in
  mk_ndarray (fv_shape embedding_data)
    (map (fun d => np_lt d threshold) (background_distances embedding_data)).

(** [self.painting_data[z, y, x] = v] *)
Definition write_painting (i : index3) (v : Z) : Py unit :=
  a <~ get ;;
  painted <~ lift (setitem (painting_data a) i v) ;;
  modify (set_painting_data painted).

(** The body of the [estimate_background] worker.  The line that prints the
    distance statistics is left out. *)
Definition estimate_background : Py unit :=
  print EstimatingBackground ;;;
  a <~ get ;;
  let embedding_data := feature_data_tomotwin a in
  let mask := background_mask embedding_data in
  let indices := where3 mask in
  print (LabelingBackground (length indices)) ;;;
  for_each indices (fun i => write_painting i 1%Z).

(* --------------------------------------------------------------------- *)
(** ** The embedding plot and selection in it *)
(* --------------------------------------------------------------------- *)

Definition create_embedding_plot : Py unit :=
  modify (set_embedding_figure []) ;;;                (* embedding_figure.clear() *)
  a <~ get ;;
  let features := fv_rows (feature_data_tomotwin a) in
  let labels := data (painting_data a) in
  let labelled := map (fun l => (0 <? l)%Z) labels in
  filtered_features <~ lift (mask_index features labelled) ;;
  filtered_labels <~ lift (mask_index labels labelled) ;;
  if length filtered_features <? 2 then
    print NotEnoughLabeledData
  else
    let fitted := pls_fit filtered_features filtered_labels in
    modify (set_pls (Some fitted)) ;;;
    let embedding := pls_transform fitted filtered_features in
    modify (set_pls_embedding (Some embedding)) ;;;
    let '(z_dim, y_dim, x_dim) := fv_shape (feature_data_tomotwin a) in
    let original_coords := meshgrid_ij_rows x_dim y_dim z_dim in
    coords <~ lift (mask_index original_coords labelled) ;;
    modify (set_filtered_coords (Some coords)) ;;;
    modify (set_embedding_figure (zip embedding filtered_labels)).

(** The click handler of the plot, for a click inside the axes. *)
Definition onclick (xdata ydata : F) : Py unit :=
  embedding <~ attr pls_embedding ;;
  let distances :=
    map (fun p => np_sqrt (np_sum [np_square (np_sub (fst p) xdata);
                                   np_square (np_sub (snd p) ydata)])) embedding in
  let nearest_point_index := np_argmin distances in
  coords <~ attr filtered_coords ;;
  match coords !! nearest_point_index with
  | Some nearest_image_coordinates => print (Clicked nearest_image_coordinates)
  | None => raise IndexError
  end.

Definition paint_thread (lasso_path : Path) (target_label : Z) : Py unit :=
  a <~ get ;;
  let all_features_flat := fv_rows (feature_data_tomotwin a) in
  fitted <~ attr pls ;;
  let all_embeddings := pls_transform fitted all_features_flat in
  let contained := map (contains_point lasso_path) all_embeddings in
  let shape := fv_shape (feature_data_tomotwin a) in
  for_each (where_flat contained) (fun idx =>
    i <~ lift (unravel_index idx shape) ;;
    write_painting i target_label) ;;;
  print (Painted (length (where_flat contained)) target_label).

(** [update_painting_layer] hands the path and the active label to a thread
    that runs [paint_thread]. *)
Definition update_painting_layer (path : Path) : Py unit :=
  a <~ get ;;
  paint_thread path (selected_label (the_widget a)).

(* --------------------------------------------------------------------- *)
(** ** The event loop *)
(* --------------------------------------------------------------------- *)

(** A worker's function has run: its value goes to the slot connected to
    [returned]; when it raised, [errored] is emitted, to which nothing is
    connected.  A quit request does not stop a function worker. *)
Definition run_worker {A} (body : Py A) (slot : A -> Py unit) : Py unit :=
  fun a => match body a with
           | (Ok r, a') => slot r a'
           | (Raise _, a') => (Ok tt, a')
           end.

Definition worker_returns (w : nat) : Py unit :=
  a <~ get ;;
  match workers a !! w with
  | Some (mk_worker (FitJob model_type features labels) _ true) =>
      run_worker (model_fit_thread model_type features labels) on_model_fit_completed
  | Some (mk_worker (PredictJob features) _ true) =>
      run_worker (prediction_thread features) on_prediction_completed
  | _ => ret tt
  end.

Inductive event : Type :=
| Paint (i : index3) (label : Z)      (* the brush writes one voxel *)
| DataChanged                         (* the debounced paint event *)
| FitModelNow                         (* "Fit Model Now" *)
| PredictNow                          (* "Predict Now" *)
| WorkerReturns (w : nat)             (* worker [w] has finished *)
| LassoSelected (path : Path).         (* a lasso was drawn in the plot *)

(** Of [on_data_change], the slot of the debounced paint event, the model
    keeps the rebuild of the embedding plot; the painting statistics and the
    redrawing are left out. *)
Definition handle (e : event) : Py unit :=
  match e with
  | Paint i label => write_painting i label
  | DataChanged => create_embedding_plot
  | FitModelNow => start_model_fit
  | PredictNow => start_prediction
  | WorkerReturns w => worker_returns w
  | LassoSelected path => update_painting_layer path
  end.

(** An exception that escapes a slot is reported by the event loop; the
    application goes on in the state the slot left. *)
Definition step (a : CellCanvasApp) (e : event) : CellCanvasApp := snd (handle e a).

Definition run_events (es : list event) (a : CellCanvasApp) : CellCanvasApp :=
  fold_left step es a.

(** The state [__init__] builds from the opened volumes, before its final
    call of [create_embedding_plot]. *)
Definition blank (fd : feature_volume F) (painting prediction : ndarray Z)
    (w : widget) : CellCanvasApp :=
  mk_app fd painting prediction None None None None None None None None []
         None None None [] w [].

Definition init (fd : feature_volume F) (painting prediction : ndarray Z)
    (w : widget) : CellCanvasApp :=
  snd (create_embedding_plot (blank fd painting prediction w)).

(** The application with another log and another figure on the canvas. *)
Definition with_display (lg : list message) (fig : list ((F * F) * Z))
    (a : CellCanvasApp) : CellCanvasApp :=
  set_log lg (set_embedding_figure fig a).

(** The voxels that count as labelled: label greater than 0. *)
Definition labelled_count (painting : ndarray Z) : nat :=
  length (filter (fun l => (0 < l)%Z) (data painting)).

End App.

(* ===================================================================== *)
(** * Vocabulary of the specification *)
(* ===================================================================== *)

(** The samples of a volume: each voxel's feature vector with its label,
    restricted to the voxels whose label is greater than 0. *)
Definition labelled_samples {F} (rows : list (list F)) (labels : list Z)
  : list (list F * Z) :=
  filter (fun p => (0 < p.2)%Z) (zip rows labels).

(** The values that occur in [l] are exactly [lo, lo + 1, ..., lo + k - 1]. *)
Definition is_range (lo : Z) (k : nat) (l : list Z) : Prop :=
  forall v, v ∈ l <-> (lo <= v < lo + Z.of_nat k)%Z.

(** A 0-based contiguous range of class labels. *)
Definition zero_based_contiguous (l : list Z) : Prop :=
  exists k, is_range 0 k l.

(* ===================================================================== *)
(** * A binary64 instance of the libraries, to run the code on examples *)
(* ===================================================================== *)

(** Floats are Rocq's primitive IEEE 754 binary64 numbers.  The numpy
    functions follow their documented definitions (median of a sorted
    sample, percentile by linear interpolation).  The learners are stand-ins
    with the right interface: the classifier remembers the labels it was
    fitted on and predicts the first of them; the projection keeps the first
    two features; a path is a polygon tested by crossing number. *)
Module Float64.

Definition of_nat (n : nat) : float := PrimFloat.of_uint63 (Uint63.of_Z (Z.of_nat n)).

Definition sum (l : list float) : float := fold_left PrimFloat.add l 0%float.

Fixpoint insert_sorted (x : float) (l : list float) : list float :=
  match l with
  | [] => [x]
  | y :: l' => if PrimFloat.leb x y then x :: l else y :: insert_sorted x l'
  end.

Definition sort (l : list float) : list float := foldr insert_sorted [] l.

Definition median (l : list float) : float :=
  let s := sort l in
  let n := length s in
  if n =? 0 then nan
  else if Nat.odd n then nth (n / 2) s nan
  else ((nth (n / 2 - 1) s nan + nth (n / 2) s nan) / 2)%float.

(** Linear interpolation between the two order statistics around the
    position [q / 100 * (n - 1)]. *)
Definition percentile (l : list float) (q : Z) : float :=
  let s := sort l in
  let n := length s in
  if n =? 0 then nan
  else
    let pos := Z.to_nat q * (n - 1) in
    let lo := pos / 100 in
    let gamma := (of_nat (pos mod 100) / 100)%float in
    let a := nth lo s nan in
    let b := nth (Nat.min (lo + 1) (n - 1)) s nan in
    (a + (b - a) * gamma)%float.

Fixpoint argmin_from (best : float) (best_i i : nat) (l : list float) : nat :=
  match l with
  | [] => best_i
  | x :: l' =>
      if PrimFloat.ltb x best then argmin_from x i (S i) l'
      else argmin_from best best_i (S i) l'
  end.

Definition argmin (l : list float) : nat :=
  match l with
  | [] => 0
  | x :: l' => argmin_from x 0 1 l'
  end.

Definition class_weight_balanced (classes y : list Z) : list float :=
  map (fun c => (of_nat (length y)
                 / (of_nat (length classes) * of_nat (count c y)))%float) classes.

(** Even-odd rule: count the edges a ray from the point to the right crosses. *)
Definition crosses (p : float * float) (e : (float * float) * (float * float)) : bool :=
  let '(px, py) := p in
  let '((x1, y1), (x2, y2)) := e in
  negb (eqb (PrimFloat.ltb py y1) (PrimFloat.ltb py y2))
  && PrimFloat.ltb px ((x2 - x1) * (py - y1) / (y2 - y1) + x1)%float.

Definition polygon_contains (verts : list (float * float)) (p : float * float) : bool :=
  match verts with
  | [] => false
  | v :: rest =>
      Nat.odd (length (filter (fun e => crosses p e = true) (zip verts (rest ++ [v]))))
  end.

#[global] Instance libraries : External float := {|
  np_median := median;
  np_sub := PrimFloat.sub;
  np_square := fun x => (x * x)%float;
  np_sum := sum;
  np_sqrt := PrimFloat.sqrt;
  np_percentile := percentile;
  np_lt := PrimFloat.ltb;
  np_argmin := argmin;
  Weight := float;
  compute_class_weight := class_weight_balanced;
  Model := list Z;
  RandomForestClassifier_fit := fun _ _ y => y;
  XGBClassifier_fit := fun _ y _ => y;
  clf_predict := fun m rows => map (fun _ => hd 0%Z m) rows;
  PLSRegression := unit;
  pls_fit := fun _ _ => tt;
  pls_transform := fun _ rows => map (fun r => (nth 0 r 0%float, nth 1 r 0%float)) rows;
  Path := list (float * float);
  contains_point := polygon_contains;
|}.

Definition a_widget : widget := mk_widget "Random Forest" false 2%Z.

(** The application as the constructor leaves it, for a volume of shape [s]
    with the given feature rows and painting and an empty prediction. *)
Definition volume_app (s : shape3) (rows : list (list float)) (painting : list Z)
  : CellCanvasApp :=
  init (mk_features s 2 rows) (mk_ndarray s painting)
       (mk_ndarray s (map (fun _ => 0%Z) rows)) a_widget.

Definition line_app (rows : list (list float)) (painting : list Z) : CellCanvasApp :=
  volume_app (1, 1, length rows) rows painting.

(** Two voxels, nothing painted yet. *)
Definition two_voxels : CellCanvasApp :=
  line_app [[0; 0]; [1; 1]]%float [0; 0]%Z.

(** Voxel 0 is painted 1 and fit A is requested; voxel 1 is painted 2 and
    fit B is requested while A is still running. *)
Definition two_fits_in_flight : CellCanvasApp :=
  run_events [Paint (0, 0, 0) 1%Z; FitModelNow; Paint (0, 0, 1) 2%Z; FitModelNow]
             two_voxels.

(** A model was fitted on voxel 0; then the voxel is erased and a second
    fit is requested. *)
Definition refit_after_erasing : CellCanvasApp :=
  run_events [Paint (0, 0, 0) 1%Z; FitModelNow; WorkerReturns 0;
              Paint (0, 0, 0) 0%Z; FitModelNow] two_voxels.

(** Nothing was ever painted; a fit was requested and has returned without
    a model. *)
Definition never_fitted : CellCanvasApp :=
  run_events [FitModelNow; WorkerReturns 0] two_voxels.

(** Three voxels with the same feature vector, nothing painted. *)
Definition constant_field : CellCanvasApp :=
  line_app [[0; 0]; [0; 0]; [0; 0]]%float [0; 0; 0]%Z.

(** Three voxels at distances 5, 0 and 5 from the median; voxel 0 is
    already painted 3. *)
Definition spread_field : CellCanvasApp :=
  line_app [[0; 0]; [3; 4]; [6; 8]]%float [3; 0; 0]%Z.

(** Three voxels; the first two are painted and the projection was fitted
    on them; the third is unlabelled. *)
Definition two_labelled_one_not : CellCanvasApp :=
  line_app [[0; 0]; [1; 1]; [0.5; 0.5]]%float [1; 2; 0]%Z.

(** A square around all three projected points. *)
Definition big_square : list (float * float) :=
  [(-10, -10); (10, -10); (10, 10); (-10, 10)]%float.

(** A volume of shape [(z, y, x) = (1, 2, 3)] whose voxels [(0, 0, 1)] and
    [(0, 0, 2)] are painted. *)
Definition slab : CellCanvasApp :=
  volume_app (1, 2, 3)
    [[0; 0]; [1; 1]; [2; 2]; [3; 3]; [4; 4]; [5; 5]]%float [0; 1; 2; 0; 0; 0]%Z.

(** A fitted model and a finished prediction request on two voxels. *)
Definition prediction_in_flight : CellCanvasApp :=
  run_events [Paint (0, 0, 0) 1%Z; FitModelNow; WorkerReturns 0; PredictNow]
             two_voxels.

(** The projection was fitted on two labelled voxels; then one of the two
    labels is erased. *)
Definition one_label_left : CellCanvasApp :=
  step two_labelled_one_not (Paint (0, 0, 1) 0%Z).

End Float64.

(* ===================================================================== *)
(** * More of the application: the widget, the legend, views of the state *)
(* ===================================================================== *)

Section Slots.
Context {F : Type} {E : External F}.
Local Open Scope py_scope.

(** The user changes a control of the widget. *)
Definition set_the_widget v (a : CellCanvasApp) : CellCanvasApp :=
  mk_app (feature_data_tomotwin a) (painting_data a) (prediction_data a) (prediction_labels a)
    (prediction_counts a) (model a) (features a) (labels a) (model_type a)
    (model_fit_worker a) (prediction_worker a) (workers a) (pls a) (pls_embedding a)
    (filtered_coords a) (embedding_figure a) v (log a).

(** The parts of the state that describe the background jobs, and the
    parts that their results are published to. *)
Definition jobs (a : CellCanvasApp) : list (worker F) * option nat * option nat :=
  (workers a, model_fit_worker a, prediction_worker a).

Definition results (a : CellCanvasApp)
  : option Model * ndarray Z * option (list Z) * option (list nat) :=
  (model a, prediction_data a, prediction_labels a, prediction_counts a).

(** Worker [w], at position [i], is the one the application currently holds
    for its kind of job. *)
Definition current_of_kind (a : CellCanvasApp) (i : nat) (w : worker F) : Prop :=
  match w_job w with
  | FitJob _ _ _ => model_fit_worker a = Some i
  | PredictJob _ => prediction_worker a = Some i
  end.

(** Every worker was started, and every worker that was not asked to quit
    is the current one of its kind. *)
Definition single_flight (a : CellCanvasApp) : Prop :=
  forall i w, workers a !! i = Some w ->
    w_started w = true
    /\ (w_abort_requested w = false -> current_of_kind a i w).

Definition is_fit_job (w : worker F) : bool :=
  match w_job w with FitJob _ _ _ => true | PredictJob _ => false end.

(** The events by which labels change: the brush, the debounced refresh
    that follows it, and a lasso selection. *)
Definition is_label_mutation (e : event) : bool :=
  match e with
  | Paint _ _ | DataChanged | LassoSelected _ => true
  | _ => false
  end.

Definition is_predict_now (e : event) : bool :=
  match e with PredictNow => true | _ => false end.

(** The feature array and the extent of the painting. *)
Definition volumes (a : CellCanvasApp) : feature_volume F * shape3 * nat :=
  (feature_data_tomotwin a, shape (painting_data a), length (data (painting_data a))).

(** The worker list after [quit()] on the worker held in a handle. *)
Definition after_quit (handle : option nat) (ws : list (worker F)) : list (worker F) :=
  match handle with
  | Some w => alter (fun x => mk_worker (w_job x) true (w_started x)) w ws
  | None => ws
  end.

End Slots.

(** ** The "Estimate Background" button *)

(** [CellCanvasApp] with the attribute [background_estimation_worker]: the
    worker object it holds, as (quit requested, started). *)
Record BackgroundButton {F : Type} {E : External F} : Type := mk_background {
  bg_app : CellCanvasApp;
  background_estimation_worker : option (bool * bool);
}.
Arguments BackgroundButton F {E}.
Arguments mk_background {F E} _ _.
Arguments bg_app {F E} _.
Arguments background_estimation_worker {F E} _.

(** [start_background_estimation]: the previous worker is asked to quit and a
    new worker object is created; connecting its [returned] signal reads
    [self.on_background_estimation_completed], which the class does not
    define, so the method raises before [start()]. *)
Definition start_background_estimation {F : Type} {E : External F}
  : M (BackgroundButton F) unit :=
  bind (modify (fun s =>
          match background_estimation_worker s with
          | Some (_, started) => mk_background (bg_app s) (Some (true, started))
          | None => s
          end))
       (fun _ =>
  bind (modify (fun s => mk_background (bg_app s) (Some (false, false))))
       (fun _ => raise AttributeError)).

(** ** The legend of class labels ([CellCanvasWidget]) *)

(** One line of the legend: the text of its edit field and whether it is
    highlighted. *)
Record legend_entry : Type := mk_entry {
  entry_text : string;
  entry_highlighted : bool;
}.

(** [class_labels_mapping] exists only after the first [setupLegend]. *)
Record Legend : Type := mk_legend {
  class_labels_mapping : option (gmap Z string);
  label_edits : gmap Z legend_entry;
}.

(** The body of the loop of [setupLegend] for one label. *)
Definition legend_add (selected : Z) (st : gmap Z string * gmap Z legend_entry)
    (label_id : Z) : gmap Z string * gmap Z legend_entry :=
  let '(mapping, edits) := st in
  let mapping' :=
    match mapping !! label_id with
    | Some _ => mapping
    | None => <[label_id := ("Class " +:+ pretty label_id)%string]> mapping
    end in
  let label_name := default ""%string (mapping' !! label_id) in
  (mapping', <[label_id := mk_entry label_name (bool_decide (label_id = selected))]> edits).

(** [setupLegend], for the active labels [self.app.painting_labels] and the
    painting layer's selected label. *)
Definition setupLegend (active_labels : option (list Z)) (selected : Z)
    (w : Legend) : Legend :=
  let mapping := default ∅ (class_labels_mapping w) in
  match active_labels with
  | None => mk_legend (Some mapping) ∅
  | Some ls =>
      let '(mapping', edits) := foldl (legend_add selected) (mapping, ∅) ls in
      mk_legend (Some mapping') edits
  end.

(** [updateLegendHighlighting]: highlight the entry of the selected label and
    no other. *)
Definition updateLegendHighlighting (current : Z) (w : Legend) : Legend :=
  mk_legend (class_labels_mapping w)
    (map_imap (fun id e => Some (mk_entry (entry_text e) (bool_decide (id = current))))
              (label_edits w)).

(** [updateClassLabelName], the slot of an edit field's [textChanged]. *)
Definition updateClassLabelName (label_id : Z) (name : string) (w : Legend)
  : result Legend :=
  match class_labels_mapping w with
  | None => Raise AttributeError
  | Some mapping => Ok (mk_legend (Some (<[label_id := name]> mapping)) (label_edits w))
  end.

(** The user types [name] into the edit field of [label_id]: the field
    holds the new text and its [textChanged] slot runs. *)
Definition edit_label (label_id : Z) (name : string) (w : Legend) : result Legend :=
  match label_edits w !! label_id with
  | None => Ok w
  | Some e =>
      updateClassLabelName label_id name
        (mk_legend (class_labels_mapping w)
                   (<[label_id := mk_entry name (entry_highlighted e)]> (label_edits w)))
  end.

(** The widget before its first [setupLegend]. *)
Definition new_legend : Legend := mk_legend None ∅.

(** ** More example states *)

Module Float64Cases.

(** A widget with "Live Prediction" checked. *)
Definition live_widget : widget := mk_widget "XGBoost" true 1%Z.

Definition live_two_voxels : CellCanvasApp :=
  init (mk_features (1, 1, 2) 2 [[0; 0]; [1; 1]]%float)
       (mk_ndarray (1, 1, 2) [1; 2]%Z) (mk_ndarray (1, 1, 2) [7; 7]%Z) live_widget.

(** A cube-like volume with equal z and x extents, (2, 1, 2), two voxels
    painted. *)
Definition square_slab : CellCanvasApp :=
  Float64.volume_app (2, 1, 2) [[0; 0]; [1; 1]; [2; 2]; [3; 3]]%float [0; 1; 2; 0]%Z.

End Float64Cases.

(* ===================================================================== *)
(** * Facts about flat indices and arrays *)
(* ===================================================================== *)

Module NpFacts.

Lemma lookup_map {A B} (f : A -> B) (l : list A) (i : nat) :
  map f l !! i = f <$> (l !! i).
Proof. exact (list_lookup_fmap f l i). Qed.

Lemma lookup_seq_dec (j n i : nat) :
  seq j n !! i = if decide (i < n) then Some (j + i) else None.
Proof.
  case_decide; [by apply lookup_seq_lt | apply lookup_seq_ge; lia].
Qed.

Lemma lookup_seq0 (n i : nat) : i < n -> seq 0 n !! i = Some i.
Proof. intros H. by rewrite lookup_seq_lt. Qed.

Lemma map_seq_block {A} (g : nat -> A) (n m : nat) :
  map (fun t => g (t mod m)) (seq (n * m) m) = map g (seq 0 m).
Proof.
  apply list_eq; intros i. rewrite !lookup_map, !lookup_seq_dec.
  destruct (decide (i < m)) as [Hi|Hi]; simpl; [|done].
  f_equal. f_equal.
  rewrite Nat.add_comm, Nat.Div0.mod_add. apply Nat.mod_small; lia.
Qed.

(** Two nested loops enumerate quotient and remainder. *)
Lemma flat_map_seq_div_mod {A} (g : nat -> nat -> A) (n m : nat) :
  flat_map (fun i => map (g i) (seq 0 m)) (seq 0 n)
  = map (fun t => g (t / m) (t mod m)) (seq 0 (n * m)).
Proof.
  induction n as [|n IH]; [done|].
  rewrite seq_S, flat_map_app, IH; simpl. rewrite app_nil_r.
  replace (m + n * m) with (n * m + m) by lia.
  rewrite seq_app, map_app. f_equal. simpl.
  apply list_eq; intros i. rewrite !lookup_map, !lookup_seq_dec.
  destruct (decide (i < m)) as [Hi|Hi]; simpl; [|done].
  f_equal. f_equal.
  - rewrite Nat.add_comm, Nat.div_add by lia. rewrite Nat.div_small; lia.
  - rewrite Nat.add_comm, Nat.Div0.mod_add. symmetry; apply Nat.mod_small; lia.
Qed.

Lemma ndindex_unravel (s : shape3) :
  ndindex s = map (fun n => unravel n s) (seq 0 (size s)).
Proof.
  destruct s as [[a b] c]. unfold ndindex, unravel, size.
  erewrite flat_map_ext.
  2:{ intros i. apply (flat_map_seq_div_mod (fun j k => (i, j, k))). }
  rewrite (flat_map_seq_div_mod (fun i t => (i, t / c, t mod c))).
  rewrite <- Nat.mul_assoc.
  apply map_ext_in. intros n _.
  destruct (decide (c = 0)) as [->|Hc].
  { rewrite Nat.mul_0_r, !Nat.div_0_r, !Nat.mod_0_r, Nat.Div0.div_0_l, Nat.Div0.mod_0_l.
    done. }
  destruct (decide (b = 0)) as [->|Hb].
  { rewrite Nat.mul_0_l, !Nat.div_0_r, !Nat.mod_0_r. done. }
  f_equal; [f_equal|].
  - rewrite Nat.Div0.div_div. f_equal. lia.
  - rewrite (Nat.mul_comm b c), Nat.Div0.mod_mul_r.
    rewrite (Nat.mul_comm c), Nat.div_add by lia.
    rewrite (Nat.div_small (n mod c)); [lia|]. apply Nat.mod_upper_bound; lia.
  - rewrite (Nat.mul_comm b c), Nat.Div0.mod_mul_r.
    rewrite (Nat.mul_comm c), Nat.Div0.mod_add. apply Nat.Div0.mod_mod.
Qed.

Lemma length_ndindex (s : shape3) : length (ndindex s) = size s.
Proof. rewrite ndindex_unravel, length_map, length_seq. done. Qed.

Lemma lookup_ndindex (s : shape3) (n : nat) :
  n < size s -> ndindex s !! n = Some (unravel n s).
Proof.
  intros H. rewrite ndindex_unravel, lookup_map, lookup_seq0; done.
Qed.

Lemma in_bounds_spec (s : shape3) (i : index3) :
  in_bounds s i = true <->
  i.1.1 < s.1.1 /\ i.1.2 < s.1.2 /\ i.2 < s.2.
Proof.
  destruct s as [[a b] c], i as [[z y] x]; simpl.
  rewrite !andb_true_iff, !Nat.ltb_lt. tauto.
Qed.

Lemma ravel_lt (s : shape3) (i : index3) :
  in_bounds s i = true -> ravel_multi_index i s < size s.
Proof.
  rewrite in_bounds_spec. destruct s as [[a b] c], i as [[z y] x]; simpl.
  intros (Hz & Hy & Hx). simpl in *.
  assert (H1 : z * b + y + 1 <= a * b) by nia.
  assert (H2 : (z * b + y + 1) * c <= a * b * c) by (apply Nat.mul_le_mono_r; exact H1).
  nia.
Qed.

Lemma unravel_ravel (s : shape3) (i : index3) :
  in_bounds s i = true -> unravel (ravel_multi_index i s) s = i.
Proof.
  rewrite in_bounds_spec. destruct s as [[a b] c], i as [[z y] x]; simpl.
  intros (Hz & Hy & Hx). simpl in *.
  assert (Hq : ((z * b + y) * c + x) / c = z * b + y).
  { rewrite Nat.add_comm, Nat.div_add by lia. rewrite Nat.div_small; lia. }
  assert (Hr : ((z * b + y) * c + x) mod c = x).
  { rewrite Nat.add_comm, Nat.Div0.mod_add. apply Nat.mod_small; lia. }
  assert (Hz' : (z * b + y) / b = z).
  { rewrite Nat.add_comm, Nat.div_add by lia. rewrite Nat.div_small; lia. }
  assert (Hy' : (z * b + y) mod b = y).
  { rewrite Nat.add_comm, Nat.Div0.mod_add. apply Nat.mod_small; lia. }
  rewrite Hq, Hr, Hz', Hy'. done.
Qed.

Lemma unravel_in_bounds (s : shape3) (n : nat) :
  n < size s -> in_bounds s (unravel n s) = true.
Proof.
  destruct s as [[a b] c]; simpl. intros H.
  assert (c <> 0) by (intros ->; lia). assert (b <> 0) by (intros ->; lia).
  rewrite !andb_true_iff, !Nat.ltb_lt. repeat split.
  - rewrite Nat.Div0.div_div. apply Nat.Div0.div_lt_upper_bound. lia.
  - apply Nat.mod_upper_bound; lia.
  - apply Nat.mod_upper_bound; lia.
Qed.

Lemma ravel_unravel (s : shape3) (n : nat) :
  n < size s -> ravel_multi_index (unravel n s) s = n.
Proof.
  destruct s as [[a b] c]; simpl. intros H.
  pose proof (Nat.div_mod_eq n c). pose proof (Nat.div_mod_eq (n / c) b). lia.
Qed.

Lemma ravel_inj (s : shape3) (i j : index3) :
  in_bounds s i = true -> in_bounds s j = true ->
  ravel_multi_index i s = ravel_multi_index j s -> i = j.
Proof.
  intros Hi Hj Heq.
  rewrite <- (unravel_ravel s i Hi), <- (unravel_ravel s j Hj), Heq. done.
Qed.

Lemma elem_of_ndindex (s : shape3) (i : index3) :
  i ∈ ndindex s <-> in_bounds s i = true.
Proof.
  rewrite list_elem_of_lookup. split.
  - intros [n Hn]. pose proof (lookup_lt_Some _ _ _ Hn) as Hlt.
    rewrite length_ndindex in Hlt. rewrite lookup_ndindex in Hn by done.
    injection Hn as <-. by apply unravel_in_bounds.
  - intros Hi. exists (ravel_multi_index i s).
    rewrite lookup_ndindex by (by apply ravel_lt). by rewrite unravel_ravel.
Qed.

(** ** [omap] of a function that succeeds on every element *)

Lemma omap_lookup_total {A B} (f : A -> option B) (l : list A) :
  (forall x, x ∈ l -> is_Some (f x)) ->
  forall i, omap f l !! i = l !! i ≫= f.
Proof.
  induction l as [|x l IH]; intros Hall i; [done|].
  destruct (Hall x) as [y Hy]; [left|]. simpl. rewrite Hy.
  destruct i as [|i]; simpl; [done|].
  apply IH. intros z Hz. apply Hall. by right.
Qed.

Lemma length_omap_total {A B} (f : A -> option B) (l : list A) :
  (forall x, x ∈ l -> is_Some (f x)) -> length (omap f l) = length l.
Proof.
  induction l as [|x l IH]; intros Hall; [done|].
  destruct (Hall x) as [y Hy]; [left|]. simpl. rewrite Hy. simpl.
  f_equal. apply IH. intros z Hz. apply Hall. by right.
Qed.

(** ** Transposition *)

Lemma in_bounds_rev3 (s : shape3) (i : index3) :
  in_bounds (rev3 s) (rev3 i) = in_bounds s i.
Proof.
  destruct s as [[a b] c], i as [[z y] x]; simpl.
  destruct (x <? c), (y <? b), (z <? a); done.
Qed.

Lemma size_rev3 (s : shape3) : size (rev3 s) = size s.
Proof. destruct s as [[a b] c]; simpl. lia. Qed.

Lemma shape_transpose {A} (a : ndarray A) : shape (transpose a) = rev3 (shape a).
Proof. unfold transpose. by destruct (shape a) as [[n0 n1] n2]. Qed.

Lemma data_transpose {A} (a : ndarray A) :
  data (transpose a)
  = omap (fun i => data a !! ravel_multi_index (rev3 i) (shape a))
         (ndindex (rev3 (shape a))).
Proof.
  unfold transpose. destruct (shape a) as [[n0 n1] n2]; simpl.
  apply list_omap_ext, Forall2_same_length_lookup_2; [done|].
  intros n x y Hx Hy.
  pose proof (eq_trans (eq_sym Hx) Hy) as Hxy. injection Hxy as ->.
  by destruct y as [[k j] i].
Qed.

Lemma transpose_total {A} (a : ndarray A) :
  wf a ->
  forall i, i ∈ ndindex (rev3 (shape a)) ->
            is_Some (data a !! ravel_multi_index (rev3 i) (shape a)).
Proof.
  intros Hwf i Hi. apply lookup_lt_is_Some. rewrite Hwf.
  apply ravel_lt. rewrite <- in_bounds_rev3.
  replace (rev3 (rev3 i)) with i by (by destruct i as [[? ?] ?]).
  by apply elem_of_ndindex.
Qed.

Lemma wf_transpose {A} (a : ndarray A) : wf a -> wf (transpose a).
Proof.
  intros Hwf. unfold wf. rewrite shape_transpose, data_transpose.
  rewrite length_omap_total by (by apply transpose_total).
  apply length_ndindex.
Qed.

Lemma lookup_transpose {A} (a : ndarray A) (i : index3) :
  wf a -> in_bounds (shape a) i = true ->
  data (transpose a) !! ravel_multi_index (rev3 i) (rev3 (shape a))
  = data a !! ravel_multi_index i (shape a).
Proof.
  intros Hwf Hi. rewrite data_transpose.
  rewrite omap_lookup_total by (by apply transpose_total).
  assert (Hi' : in_bounds (rev3 (shape a)) (rev3 i) = true)
    by (by rewrite in_bounds_rev3).
  rewrite lookup_ndindex by (by apply ravel_lt). simpl.
  rewrite unravel_ravel by done.
  by replace (rev3 (rev3 i)) with i by (by destruct i as [[? ?] ?]).
Qed.

Lemma transpose_involutive {A} (a : ndarray A) :
  wf a -> transpose (transpose a) = a.
Proof.
  intros Hwf. pose proof (wf_transpose a Hwf) as Hwf'.
  destruct a as [s l] eqn:Ha. rewrite <- Ha in *.
  assert (Hs : shape (transpose (transpose a)) = shape a).
  { rewrite !shape_transpose. by destruct (shape a) as [[? ?] ?]. }
  assert (Hd : data (transpose (transpose a)) = data a).
  { apply list_eq; intros n.
    rewrite (data_transpose (transpose a)).
    rewrite omap_lookup_total by (by apply transpose_total).
    rewrite shape_transpose.
    replace (rev3 (rev3 (shape a))) with (shape a)
      by (by destruct (shape a) as [[? ?] ?]).
    destruct (decide (n < size (shape a))) as [Hn|Hn].
    - rewrite lookup_ndindex by done. simpl.
      rewrite (lookup_transpose a (unravel n (shape a)) Hwf)
        by (by apply unravel_in_bounds).
      by rewrite ravel_unravel.
    - rewrite (lookup_ge_None_2 (ndindex _)) by (rewrite length_ndindex; lia).
      simpl. symmetry. apply lookup_ge_None_2. rewrite Hwf. lia. }
  destruct (transpose (transpose a)) as [s' l']. simpl in Hs, Hd.
  rewrite Ha in Hs, Hd. simpl in Hs, Hd. by subst.
Qed.

(** ** Boolean-mask selection *)

Lemma select_map {A B} (f : A -> B) (mask : list bool) (l : list A) :
  select mask (map f l) = map f (select mask l).
Proof.
  revert l. induction mask as [|b mask IH]; intros [|x l]; simpl; try done.
  destruct b; simpl; by rewrite IH.
Qed.

Lemma elem_of_select {A} (mask : list bool) (l : list A) (x : A) :
  x ∈ select mask l <-> exists n, mask !! n = Some true /\ l !! n = Some x.
Proof.
  revert l. induction mask as [|b mask IH]; intros [|y l]; simpl.
  - split; [by intros ?%elem_of_nil | by intros (n & ? & ?)].
  - split; [by intros ?%elem_of_nil | by intros (n & ? & ?)].
  - split; [by intros ?%elem_of_nil | by intros (n & ? & ?)].
  - destruct b.
    + rewrite elem_of_cons, IH. split.
      * intros [->|(n & ? & ?)]; [by exists 0 | by exists (S n)].
      * intros ([|n] & Hm & Hl); simpl in *; [left; congruence | right; eauto].
    + rewrite IH. split.
      * intros (n & ? & ?). by exists (S n).
      * intros ([|n] & Hm & Hl); simpl in *; [congruence | eauto].
Qed.

(** Selecting by a mask computed from the elements is filtering. *)
Lemma select_filter {A} (p : A -> bool) (l : list A) :
  select (map p l) l = filter (fun x => p x = true) l.
Proof.
  induction l as [|x l IH]; [done|]. simpl.
  rewrite filter_cons. destruct (decide (p x = true)) as [Hp|Hp].
  - rewrite Hp. by rewrite IH.
  - destruct (p x); [done|]. exact IH.
Qed.

Lemma elem_of_where_flat (mask : list bool) (n : nat) :
  n ∈ where_flat mask <-> mask !! n = Some true.
Proof.
  unfold where_flat. rewrite elem_of_select. split.
  - intros (m & Hm & Hs). pose proof (lookup_lt_Some _ _ _ Hm) as Hlt.
    rewrite lookup_seq0 in Hs by done. congruence.
  - intros Hn. exists n. split; [done|].
    apply lookup_seq0. by eapply lookup_lt_Some.
Qed.

Lemma elem_of_where3 (mask : ndarray bool) (i : index3) :
  wf mask ->
  i ∈ where3 mask <->
  in_bounds (shape mask) i = true
  /\ data mask !! ravel_multi_index i (shape mask) = Some true.
Proof.
  intros Hwf. unfold where3. rewrite elem_of_select. split.
  - intros (n & Hm & Hi). pose proof (lookup_lt_Some _ _ _ Hm) as Hlt.
    rewrite Hwf in Hlt. rewrite lookup_ndindex in Hi by done.
    injection Hi as <-. split; [by apply unravel_in_bounds|].
    by rewrite ravel_unravel.
  - intros [Hb Hm]. exists (ravel_multi_index i (shape mask)). split; [done|].
    rewrite lookup_ndindex by (by apply ravel_lt). by rewrite unravel_ravel.
Qed.

End NpFacts.

(* ===================================================================== *)
(** * Facts about the methods *)
(* ===================================================================== *)

Ltac py_unfold :=
  unfold print, attr in *; unfold bind, ret, raise, get, modify, lift in *.

Section AppFacts.
Context {F : Type} {E : External F}.
Implicit Types a : @CellCanvasApp F E.

Lemma set_log_nil a : set_log (log a ++ []) a = a.
Proof. destruct a. unfold set_log. simpl. by rewrite app_nil_r. Qed.

(** [update_model] reads nothing of the application and only logs. *)
Lemma update_model_pure (l : ndarray Z) (f : feature_volume F) (mt : string) :
  exists r msgs, forall a, update_model l f mt a = (r, set_log (log a ++ msgs) a).
Proof.
  unfold update_model. py_unfold.
  destruct (training_set l f) as [[ff fl]|e].
  - destruct (length fl =? 0).
    + exists (Ok None), [NoLabelsPresent]. done.
    + destruct (String.eqb mt "Random Forest").
      { eexists _, []. intros a. by rewrite set_log_nil. }
      destruct (String.eqb mt "XGBoost").
      { eexists _, []. intros a. by rewrite set_log_nil. }
      exists (Raise ValueError), []. intros a. by rewrite set_log_nil.
  - exists (Raise e), []. intros a. by rewrite set_log_nil.
Qed.

Lemma update_model_fst l f mt a a' :
  fst (update_model l f mt a) = fst (update_model l f mt a').
Proof.
  destruct (update_model_pure l f mt) as (r & msgs & H). by rewrite !H.
Qed.

Lemma no_positive_label (vs : list Z) :
  filter (fun v => v <> 0%Z) vs = [] ->
  select (map (fun v => (0 <? v)%Z) vs) vs = [].
Proof.
  rewrite NpFacts.select_filter.
  induction vs as [|v vs IH]; [done|].
  rewrite !filter_cons.
  destruct (decide (v <> 0%Z)) as [Hv|Hv]; [done|].
  assert (v = 0%Z) as -> by lia. simpl. exact IH.
Qed.

(** What a returning fit worker does to the application. *)
Lemma fit_returns a w mt f l q r :
  workers a !! w = Some (mk_worker (FitJob mt f l) q true) ->
  fst (update_model l f mt a) = Ok r ->
  model (step a (WorkerReturns w)) = r
  /\ workers (step a (WorkerReturns w)) = workers a
  /\ prediction_data (step a (WorkerReturns w)) = prediction_data a.
Proof.
  intros Hw Hr.
  destruct (update_model_pure l f mt) as (r' & msgs & H).
  rewrite H in Hr. simpl in Hr. subst r'.
  unfold step, handle, worker_returns, run_worker, model_fit_thread.
  py_unfold. rewrite Hw, H. unfold on_model_fit_completed. py_unfold. simpl.
  destruct (live_pred_checkbox (the_widget a) && bool_decide (is_Some r)); done.
Qed.

Lemma fit_raises a w mt f l q e :
  workers a !! w = Some (mk_worker (FitJob mt f l) q true) ->
  fst (update_model l f mt a) = Raise e ->
  model (step a (WorkerReturns w)) = model a
  /\ workers (step a (WorkerReturns w)) = workers a
  /\ prediction_data (step a (WorkerReturns w)) = prediction_data a.
Proof.
  intros Hw Hr.
  destruct (update_model_pure l f mt) as (r' & msgs & H).
  rewrite H in Hr. simpl in Hr. subst r'.
  unfold step, handle, worker_returns, run_worker, model_fit_thread.
  py_unfold. rewrite Hw, H. done.
Qed.

(** A fit request asks the current worker, if any, to quit, and starts a
    new worker on a snapshot of the features and of the painting. *)
Lemma start_model_fit_launches a :
  fst (start_model_fit a) = Ok tt
  /\ model (snd (start_model_fit a)) = model a
  /\ model_fit_worker (snd (start_model_fit a)) = Some (length (workers a))
  /\ exists mt,
      workers (snd (start_model_fit a)) !! length (workers a)
      = Some (mk_worker (FitJob mt (feature_data_tomotwin a) (painting_data a))
                        false true).
Proof.
  unfold start_model_fit, prepare_data_for_model, get_model_type, quit,
    create_worker, start.
  py_unfold.
  destruct (model_fit_worker a) as [w|]; simpl;
    destruct (model_type a) as [[|c t]|]; simpl;
    rewrite ?length_alter;
    (split; [done|]); (split; [done|]); (split; [done|]);
    eexists;
    rewrite list_lookup_alter_eq, lookup_app_r by (rewrite ?length_alter; lia);
    rewrite ?length_alter, Nat.sub_diag;
    reflexivity.
Qed.

(** The classifier is fitted on the training set. *)
Lemma update_model_fits_training_set
    (l : ndarray Z) (f : feature_volume F) a rows ls :
  training_set l f = Ok (rows, ls) ->
  ls <> [] ->
  fst (update_model l f "Random Forest" a)
  = Ok (Some (RandomForestClassifier_fit
                (list_to_map (zip (unique ls) (compute_class_weight (unique ls) ls)))
                rows ls)).
Proof.
  intros Hts Hne. unfold update_model. py_unfold. rewrite Hts.
  destruct ls as [|v ls]; [done|]. done.
Qed.

End AppFacts.

(* ===================================================================== *)
(** * Fit requests and their results *)
(* ===================================================================== *)

Section Fit.
Context {F : Type} {E : External F}.
Implicit Types a : @CellCanvasApp F E.


(** C2, the behaviour of the code: when every label of a fit request is 0,
    the worker returns [None] and the completion handler stores it, so the
    application has no model afterwards, whatever model it had before. *)
Theorem fit_without_labels_clears_model a w mt f l q :
  workers a !! w = Some (mk_worker (FitJob mt f l) q true) ->
  length (fv_rows f) = length (data l) ->
  filter (fun v => v <> 0%Z) (data l) = [] ->
  model (step a (WorkerReturns w)) = None.
Proof.
  intros Hw Hlen Hzero.
  eapply fit_returns; [exact Hw|].
  unfold update_model, training_set, mask_index. py_unfold.
  rewrite !length_map, Hlen, !Nat.eqb_refl.
  rewrite (no_positive_label _ Hzero). done.
Qed.

End Fit.



Lemma fit_without_labels_clears_model_witness :
  model Float64.refit_after_erasing = Some [0%Z]
  /\ model (step Float64.refit_after_erasing (WorkerReturns 1)) = None.
Proof.
  split; [vm_compute; reflexivity|].
  apply (fit_without_labels_clears_model Float64.refit_after_erasing 1
           "Random Forest" (feature_data_tomotwin Float64.two_voxels)
           (mk_ndarray (1, 1, 2) [0; 0]%Z) false);
    vm_compute; reflexivity.
Defined.

(* ===================================================================== *)
(** * Prediction *)
(* ===================================================================== *)

Section Prediction.
Context {F : Type} {E : External F}.
Implicit Types a : @CellCanvasApp F E.

Lemma start_prediction_result a :
  fst (start_prediction a)
  = (if features a is Some _ then Ok tt else Raise AttributeError).
Proof.
  unfold start_prediction, get_features, quit, create_worker, start. py_unfold.
  destruct (prediction_worker a); simpl;
    destruct (features a) as [[f|]|]; simpl; done.
Qed.

Lemma start_prediction_frame a :
  prediction_data (snd (start_prediction a)) = prediction_data a
  /\ model (snd (start_prediction a)) = model a.
Proof.
  unfold start_prediction, get_features, quit, create_worker, start. py_unfold.
  destruct (prediction_worker a); simpl;
    destruct (features a) as [[f|]|]; simpl; done.
Qed.

Lemma prediction_thread_without_model a (f : feature_volume F) :
  model a = None -> prediction_thread f a = (Raise AttributeError, a).
Proof.
  intros Hm. unfold prediction_thread, predict, predict_segmenter. py_unfold.
  by rewrite Hm.
Qed.

Lemma worker_returns_without_model a w :
  model a = None ->
  prediction_data (step a (WorkerReturns w)) = prediction_data a.
Proof.
  intros Hm. unfold step, handle, worker_returns. py_unfold.
  destruct (workers a !! w) as [[[mt f l|f] q [|]]|] eqn:Hw; try done.
  - destruct (fst (update_model l f mt a)) as [r|e] eqn:Hr.
    + destruct (fit_returns a w mt f l q r Hw Hr) as (_ & _ & H).
      unfold step, handle, worker_returns in H. py_unfold. by rewrite Hw in H.
    + destruct (fit_raises a w mt f l q e Hw Hr) as (_ & _ & H).
      unfold step, handle, worker_returns in H. py_unfold. by rewrite Hw in H.
  - unfold run_worker. by rewrite prediction_thread_without_model.
Qed.

(** C3, as the code has it: [start_prediction] does not look at the model.
    With no model it raises [AttributeError] only when no feature array was
    ever cached; otherwise it returns normally and starts a worker.  The
    worker's body raises (it calls [predict] on [None]), so no result is
    delivered, and the prediction volume stays as it was. *)
Theorem prediction_without_model a :
  model a = None ->
  fst (start_prediction a)
  = (if features a is Some _ then Ok tt else Raise AttributeError)
  /\ (forall f, fst (prediction_thread f (step a PredictNow)) = Raise AttributeError)
  /\ prediction_data (step a PredictNow) = prediction_data a
  /\ (forall w, prediction_data (step (step a PredictNow) (WorkerReturns w))
                = prediction_data a).
Proof.
  intros Hm. destruct (start_prediction_frame a) as [Hpd Hmodel].
  assert (Hm' : model (step a PredictNow) = None).
  { unfold step, handle. by rewrite Hmodel. }
  split; [apply start_prediction_result|].
  split; [intros f; by rewrite prediction_thread_without_model|].
  split; [exact Hpd|].
  intros w. rewrite worker_returns_without_model by exact Hm'. exact Hpd.
Qed.

End Prediction.

(** C3, the claim fails: no model was ever fitted, yet a prediction request
    returns normally and starts a worker instead of failing. *)
Lemma prediction_without_model_is_not_refused :
  model Float64.never_fitted = None
  /\ fst (start_prediction Float64.never_fitted) = Ok tt
  /\ workers (snd (start_prediction Float64.never_fitted)) !! 1
     = Some (mk_worker (PredictJob (feature_data_tomotwin Float64.two_voxels))
                       false true).
Proof. repeat split; vm_compute; reflexivity. Qed.

Lemma prediction_without_model_witness :
  fst (start_prediction Float64.never_fitted) = Ok tt
  /\ (forall f, fst (prediction_thread f (step Float64.never_fitted PredictNow))
                = Raise AttributeError)
  /\ prediction_data (step Float64.never_fitted PredictNow)
     = prediction_data Float64.never_fitted
  /\ (forall w, prediction_data
                  (step (step Float64.never_fitted PredictNow) (WorkerReturns w))
                = prediction_data Float64.never_fitted).
Proof.
  apply (prediction_without_model Float64.never_fitted). vm_compute. reflexivity.
Defined.

(* ===================================================================== *)
(** * The training set *)
(* ===================================================================== *)

Section TrainingSet.
Context {F : Type} {E : External F}.

Lemma select_positive_rows (rows : list (list F)) (labels : list Z) :
  length rows = length labels ->
  select (map (fun v => (0 <? v)%Z) labels) rows
  = map fst (labelled_samples rows labels).
Proof.
  unfold labelled_samples.
  revert labels. induction rows as [|r rows IH]; intros [|v labels] Hlen;
    simpl in *; try done.
  rewrite filter_cons. simpl.
  destruct (decide (0 < v)%Z) as [Hv|Hv].
  - rewrite (proj2 (Z.ltb_lt 0 v) Hv). simpl. f_equal. apply IH. lia.
  - rewrite (proj2 (Z.ltb_ge 0 v)) by lia. apply IH. lia.
Qed.

Lemma select_positive_labels (rows : list (list F)) (labels : list Z) :
  length rows = length labels ->
  select (map (fun v => (0 <? v)%Z) labels) labels
  = map snd (labelled_samples rows labels).
Proof.
  unfold labelled_samples.
  revert labels. induction rows as [|r rows IH]; intros [|v labels] Hlen;
    simpl in *; try done.
  rewrite filter_cons. simpl.
  destruct (decide (0 < v)%Z) as [Hv|Hv].
  - rewrite (proj2 (Z.ltb_lt 0 v) Hv). simpl. f_equal. apply IH. lia.
  - rewrite (proj2 (Z.ltb_ge 0 v)) by lia. apply IH. lia.
Qed.

Lemma labelled_samples_nonzero (rows : list (list F)) (labels : list Z) :
  Forall (fun v => (0 <= v)%Z) labels ->
  labelled_samples rows labels
  = filter (fun p => p.2 <> 0%Z) (zip rows labels).
Proof.
  unfold labelled_samples.
  revert labels. induction rows as [|r rows IH]; intros [|v labels] Hnn;
    simpl; try done.
  inversion Hnn as [|? ? Hv Hrest]; subst.
  rewrite !filter_cons. simpl.
  destruct (decide (0 < v)%Z), (decide (v <> 0%Z)); try lia.
  - f_equal. by apply IH.
  - by apply IH.
Qed.

Lemma training_set_of_labelled_samples
    (labels : ndarray Z) (features : feature_volume F) :
  length (fv_rows features) = length (data labels) ->
  training_set labels features
  = Ok (map fst (labelled_samples (fv_rows features) (data labels)),
        map (fun p => (p.2 - 1)%Z) (labelled_samples (fv_rows features) (data labels))).
Proof.
  intros Hlen. unfold training_set, mask_index.
  rewrite !length_map, Hlen, !Nat.eqb_refl.
  rewrite select_positive_rows by done.
  rewrite (select_positive_labels (fv_rows features)) by done.
  by rewrite map_map.
Qed.

(** C4, as the code has it: the training set consists of exactly the rows
    whose label is greater than 0, in order, each with its label shifted
    down by one.  So no row labelled 0 survives and no shifted label is
    negative; when no label is negative the discarded rows are exactly
    those labelled 0; and the shifted labels form the range 0..K-1 when
    the surviving labels are exactly 1..K. *)
Theorem training_set_keeps_positive_labels
    (labels : ndarray Z) (features : feature_volume F) :
  length (fv_rows features) = length (data labels) ->
  training_set labels features
  = Ok (map fst (labelled_samples (fv_rows features) (data labels)),
        map (fun p => (p.2 - 1)%Z) (labelled_samples (fv_rows features) (data labels)))
  /\ Forall (fun p => p.2 <> 0%Z /\ (0 <= p.2 - 1)%Z)
            (labelled_samples (fv_rows features) (data labels))
  /\ (Forall (fun v => (0 <= v)%Z) (data labels) ->
      labelled_samples (fv_rows features) (data labels)
      = filter (fun p => p.2 <> 0%Z) (zip (fv_rows features) (data labels)))
  /\ (forall k,
        is_range 1 k (map snd (labelled_samples (fv_rows features) (data labels))) ->
        is_range 0 k (map (fun p => (p.2 - 1)%Z)
                          (labelled_samples (fv_rows features) (data labels)))).
Proof.
  intros Hlen. split; [|split; [|split]].
  - unfold training_set, mask_index.
    rewrite !length_map, Hlen, !Nat.eqb_refl.
    rewrite select_positive_rows by done.
    rewrite (select_positive_labels (fv_rows features)) by done.
    by rewrite map_map.
  - apply Forall_forall. intros p Hp.
    unfold labelled_samples in Hp. apply list_elem_of_filter in Hp. lia.
  - apply labelled_samples_nonzero.
  - intros k Hk v. split.
    + intros Hv. apply list_elem_of_In, in_map_iff in Hv as (p & <- & Hp).
      assert (Hin : p.2 ∈ map snd (labelled_samples (fv_rows features) (data labels))).
      { apply list_elem_of_In, in_map_iff. by exists p. }
      apply Hk in Hin. lia.
    + intros Hv.
      assert (Hin : (v + 1)%Z ∈ map snd
                      (labelled_samples (fv_rows features) (data labels))).
      { apply Hk. lia. }
      apply list_elem_of_In, in_map_iff in Hin as (p & Hp1 & Hp).
      apply list_elem_of_In, in_map_iff. exists p. split; [lia | done].
Qed.

End TrainingSet.

(** C4, the claim fails: two voxels painted 2 and 5 give the training
    labels 1 and 4, which are not a 0-based contiguous range. *)
Lemma shifted_labels_need_not_be_contiguous :
  training_set (mk_ndarray (1, 1, 2) [2; 5]%Z)
               (feature_data_tomotwin Float64.two_voxels)
  = Ok ([[0; 0]; [1; 1]]%float, [1; 4]%Z)
  /\ ~ zero_based_contiguous [1; 4]%Z.
Proof.
  split; [vm_compute; reflexivity|].
  intros [k Hk].
  assert (H4 : (0 <= 4 < 0 + Z.of_nat k)%Z).
  { apply Hk. apply list_elem_of_In. simpl. auto. }
  assert (H0 : (0%Z : Z) ∈ [1; 4]%Z) by (apply Hk; lia).
  apply list_elem_of_In in H0. simpl in H0. intuition discriminate.
Qed.

Lemma training_set_keeps_positive_labels_witness :
  training_set (mk_ndarray (1, 1, 2) [1; 2]%Z)
               (feature_data_tomotwin Float64.two_voxels)
  = Ok (map fst (labelled_samples [[0; 0]; [1; 1]]%float [1; 2]%Z),
        map (fun p => (p.2 - 1)%Z) (labelled_samples [[0; 0]; [1; 1]]%float [1; 2]%Z)).
Proof.
  apply (training_set_keeps_positive_labels (mk_ndarray (1, 1, 2) [1; 2]%Z)
           (feature_data_tomotwin Float64.two_voxels)).
  vm_compute. reflexivity.
Defined.

(* ===================================================================== *)
(** * Writing labels into the painting *)
(* ===================================================================== *)

Section Writes.
Context {F : Type} {E : External F}.
Implicit Types a : @CellCanvasApp F E.

Lemma set_painting_data_twice a p q :
  set_painting_data p (set_painting_data q a) = set_painting_data p a.
Proof. done. Qed.

Lemma write_painting_ok a i v :
  in_bounds (shape (painting_data a)) i = true ->
  write_painting i v a
  = (Ok tt, set_painting_data
              (mk_ndarray (shape (painting_data a))
                 (<[ravel_multi_index i (shape (painting_data a)) := v]>
                    (data (painting_data a)))) a).
Proof.
  intros Hi. unfold write_painting, setitem. py_unfold. by rewrite Hi.
Qed.

(** A loop whose body writes [v] at an in-bounds voxel for every element. *)
Lemma for_each_writes {A} (xs : list A) (body : A -> M CellCanvasApp unit)
    (h : A -> index3) (v : Z) a :
  (forall x a', x ∈ xs -> body x a' = write_painting (h x) v a') ->
  Forall (fun x => in_bounds (shape (painting_data a)) (h x) = true) xs ->
  for_each xs body a
  = (Ok tt, set_painting_data
              (mk_ndarray (shape (painting_data a))
                 (written (shape (painting_data a)) v (data (painting_data a))
                          (map h xs))) a).
Proof.
  revert a. induction xs as [|x xs IH]; intros a Hbody Hin.
  - simpl. unfold ret. by destruct a as [? [? ?]].
  - inversion Hin as [|? ? Hx Hxs]; subst. simpl. unfold bind.
    rewrite Hbody by left. rewrite write_painting_ok by done.
    rewrite IH.
    + done.
    + intros y a' Hy. apply Hbody. by right.
    + done.
Qed.

Lemma length_written s (v : Z) d idxs : length (written s v d idxs) = length d.
Proof.
  revert d. induction idxs as [|i idxs IH]; intros d; [done|].
  simpl. by rewrite IH, length_insert.
Qed.

Lemma lookup_written s (v : Z) d idxs n :
  n < length d ->
  written s v d idxs !! n
  = if decide (n ∈ map (fun i => ravel_multi_index i s) idxs) then Some v
    else d !! n.
Proof.
  revert d. induction idxs as [|i idxs IH]; intros d Hn.
  - rewrite decide_False; [done | by intros ?%elem_of_nil].
  - cbn [written foldl map]. fold (written s v (<[ravel_multi_index i s:=v]> d) idxs).
    rewrite IH by (by rewrite length_insert).
    destruct (decide (n ∈ map (fun i => ravel_multi_index i s) idxs)) as [Hin|Hin].
    + rewrite decide_True; [done | by right].
    + destruct (decide (ravel_multi_index i s = n)) as [<-|Hne].
      * rewrite list_lookup_insert_eq by done. rewrite decide_True; [done | by left].
      * rewrite list_lookup_insert_ne by done.
        rewrite decide_False; [done|]. intros [?|?]%elem_of_cons; congruence.
Qed.

(** Reading a voxel after the writes. *)
Lemma getitem_written (p : ndarray Z) v idxs i :
  wf p -> in_bounds (shape p) i = true ->
  Forall (fun j => in_bounds (shape p) j = true) idxs ->
  getitem (mk_ndarray (shape p) (written (shape p) v (data p) idxs)) i
  = if decide (i ∈ idxs) then Ok v else getitem p i.
Proof.
  intros Hwf Hi Hall. unfold getitem. simpl. rewrite Hi.
  rewrite lookup_written by (rewrite Hwf; by apply NpFacts.ravel_lt).
  destruct (decide (i ∈ idxs)) as [Hin|Hin].
  - rewrite decide_True; [done|].
    apply list_elem_of_In, in_map_iff. exists i. by rewrite <- list_elem_of_In.
  - rewrite decide_False; [done|].
    intros (j & Hj & Hjin)%list_elem_of_In%in_map_iff.
    apply list_elem_of_In in Hjin. apply Hin.
    rewrite Forall_forall in Hall.
    by rewrite <- (NpFacts.ravel_inj (shape p) j i (Hall j Hjin) Hi Hj).
Qed.

End Writes.

(* ===================================================================== *)
(** * Background estimation *)
(* ===================================================================== *)

Section Background.
Context {F : Type} {E : External F}.
Implicit Types a : @CellCanvasApp F E.

Lemma select_subset {A} (mask : list bool) (l : list A) (x : A) :
  x ∈ select mask l -> x ∈ l.
Proof.
  intros (n & _ & Hn)%NpFacts.elem_of_select. by eapply list_elem_of_lookup_2.
Qed.

Lemma select_none {A} (mask : list bool) (l : list A) :
  Forall (fun b => b = false) mask -> select mask l = [].
Proof.
  intros Hall. revert l. induction Hall as [|b mask -> _ IH]; intros [|x l]; simpl; auto.
Qed.

Lemma where3_in_bounds (mask : ndarray bool) :
  Forall (fun i => in_bounds (shape mask) i = true) (where3 mask).
Proof.
  apply Forall_forall. intros i Hi.
  by apply NpFacts.elem_of_ndindex, (select_subset (data mask)).
Qed.

(** The worker body as one bulk update of the painting. *)
Lemma estimate_background_eq a :
  shape (painting_data a) = fv_shape (feature_data_tomotwin a) ->
  fst (estimate_background a) = Ok tt
  /\ painting_data (snd (estimate_background a))
     = mk_ndarray (shape (painting_data a))
         (written (shape (painting_data a)) 1%Z (data (painting_data a))
                  (where3 (background_mask (feature_data_tomotwin a)))).
Proof.
  intros Hshape. unfold estimate_background. py_unfold. simpl.
  rewrite (for_each_writes _ _ (fun i => i) 1%Z).
  - simpl. by rewrite map_id.
  - done.
  - simpl. rewrite Hshape. apply (where3_in_bounds (background_mask _)).
Qed.

(** C10: background estimation returns normally; afterwards every voxel
    selected by the background mask holds the label 1, and every other
    voxel holds the label it had before. *)
Theorem estimate_background_writes_only_label_1 a :
  wf (painting_data a) ->
  shape (painting_data a) = fv_shape (feature_data_tomotwin a) ->
  fst (estimate_background a) = Ok tt
  /\ shape (painting_data (snd (estimate_background a))) = shape (painting_data a)
  /\ forall i, in_bounds (shape (painting_data a)) i = true ->
       getitem (painting_data (snd (estimate_background a))) i
       = if decide (i ∈ where3 (background_mask (feature_data_tomotwin a)))
         then Ok 1%Z
         else getitem (painting_data a) i.
Proof.
  intros Hwf Hshape.
  destruct (estimate_background_eq a Hshape) as [Hok Hpd].
  split; [exact Hok|]. rewrite Hpd. split; [done|].
  intros i Hi. apply getitem_written; [done | done |].
  rewrite Hshape. apply (where3_in_bounds (background_mask _)).
Qed.


End Background.



Lemma estimate_background_writes_only_label_1_witness :
  fst (estimate_background Float64.spread_field) = Ok tt
  /\ shape (painting_data (snd (estimate_background Float64.spread_field)))
     = (1, 1, 3)
  /\ forall i, in_bounds (1, 1, 3) i = true ->
       getitem (painting_data (snd (estimate_background Float64.spread_field))) i
       = if decide (i ∈ where3 (background_mask
                                  (feature_data_tomotwin Float64.spread_field)))
         then Ok 1%Z
         else getitem (painting_data Float64.spread_field) i.
Proof.
  apply (estimate_background_writes_only_label_1 Float64.spread_field);
    vm_compute; reflexivity.
Defined.

(* ===================================================================== *)
(** * Selection in the embedding plot *)
(* ===================================================================== *)

Section Selection.
Context {F : Type} {E : External F}.
Implicit Types a : @CellCanvasApp F E.

(** The selection thread as one bulk update of the painting. *)
Lemma paint_thread_eq a (p : PLSRegression) (path : Path) (target : Z) :
  pls a = Some p ->
  fv_wf (feature_data_tomotwin a) ->
  shape (painting_data a) = fv_shape (feature_data_tomotwin a) ->
  length (pls_transform p (fv_rows (feature_data_tomotwin a)))
  = length (fv_rows (feature_data_tomotwin a)) ->
  fst (paint_thread path target a) = Ok tt
  /\ painting_data (snd (paint_thread path target a))
     = mk_ndarray (shape (painting_data a))
         (written (shape (painting_data a)) target (data (painting_data a))
            (map (fun n => unravel n (shape (painting_data a)))
               (where_flat (map (contains_point path)
                  (pls_transform p (fv_rows (feature_data_tomotwin a))))))).
Proof.
  intros Hpls Hwf Hshape Hlen. unfold paint_thread. py_unfold.
  rewrite Hpls. rewrite <- Hshape.
  rewrite (for_each_writes _ _ (fun n => unravel n (shape (painting_data a))) target).
  - done.
  - intros n a' Hn. apply NpFacts.elem_of_where_flat in Hn.
    apply lookup_lt_Some in Hn. rewrite length_map, Hlen, Hwf, <- Hshape in Hn.
    unfold unravel_index. by rewrite (proj2 (Nat.ltb_lt _ _) Hn).
  - apply Forall_forall. intros n Hn. apply NpFacts.elem_of_where_flat in Hn.
    apply lookup_lt_Some in Hn. rewrite length_map, Hlen, Hwf, <- Hshape in Hn.
    by apply NpFacts.unravel_in_bounds.
Qed.


(** ** The selection thread does not read the log or the figure *)

Lemma write_painting_display lg fig a i v :
  write_painting i v (with_display lg fig a)
  = (fst (write_painting i v a), with_display lg fig (snd (write_painting i v a))).
Proof.
  unfold write_painting. py_unfold.
  change (painting_data (with_display lg fig a)) with (painting_data a).
  destruct (setitem (painting_data a) i v); reflexivity.
Qed.

Lemma for_each_display {A} (body : A -> M CellCanvasApp unit) (xs : list A)
    lg fig a :
  (forall x a', body x (with_display lg fig a')
                = (fst (body x a'), with_display lg fig (snd (body x a')))) ->
  for_each xs body (with_display lg fig a)
  = (fst (for_each xs body a), with_display lg fig (snd (for_each xs body a))).
Proof.
  intros Hbody. revert a. induction xs as [|x xs IH]; intros a; [done|].
  simpl. unfold bind. rewrite Hbody.
  destruct (body x a) as [[[]|e] a1]; simpl; [apply IH | done].
Qed.

Lemma display_fields lg fig a :
  feature_data_tomotwin (with_display lg fig a) = feature_data_tomotwin a
  /\ pls (with_display lg fig a) = pls a
  /\ painting_data (with_display lg fig a) = painting_data a.
Proof. done. Qed.

Lemma paint_thread_display lg fig a (path : Path) (target : Z) :
  fst (paint_thread path target (with_display lg fig a))
  = fst (paint_thread path target a)
  /\ painting_data (snd (paint_thread path target (with_display lg fig a)))
     = painting_data (snd (paint_thread path target a)).
Proof.
  destruct (display_fields lg fig a) as (Hfd & Hpls & _).
  unfold paint_thread. py_unfold. rewrite Hfd, Hpls.
  destruct (pls a) as [p|]; [|done].
  rewrite for_each_display.
  - destruct (for_each _ _ a) as [[[]|e] a1]; done.
  - intros n a'. destruct (unravel_index n _) as [i|e]; [|done].
    apply write_painting_display.
Qed.

End Selection.



(* ===================================================================== *)
(** * Rebuilding the embedding plot *)
(* ===================================================================== *)

Section Embedding.
Context {F : Type} {E : External F}.
Implicit Types a : @CellCanvasApp F E.

Lemma length_select_labelled (rows : list (list F)) (p : ndarray Z) :
  length rows = length (data p) ->
  length (select (map (fun l => (0 <? l)%Z) (data p)) rows) = labelled_count p.
Proof.
  intros Hlen. rewrite select_positive_rows by done.
  rewrite length_map, <- (length_map snd), <- select_positive_labels by done.
  rewrite NpFacts.select_filter. unfold labelled_count. f_equal.
  apply list_filter_iff. intros v. apply Z.ltb_lt.
Qed.

(** C9: with fewer than two labelled voxels the rebuild stops with the
    message that there is not enough labelled data; it produces no
    projection, and the projection, its embedding and its coordinates stay
    as they were, so a later selection behaves as it would have before. *)
Theorem too_few_labelled_voxels_keep_projection a :
  length (fv_rows (feature_data_tomotwin a)) = length (data (painting_data a)) ->
  labelled_count (painting_data a) < 2 ->
  fst (create_embedding_plot a) = Ok tt
  /\ log (snd (create_embedding_plot a)) = log a ++ [NotEnoughLabeledData]
  /\ pls (snd (create_embedding_plot a)) = pls a
  /\ pls_embedding (snd (create_embedding_plot a)) = pls_embedding a
  /\ filtered_coords (snd (create_embedding_plot a)) = filtered_coords a
  /\ painting_data (snd (create_embedding_plot a)) = painting_data a
  /\ forall (path : Path) (target : Z),
       fst (paint_thread path target (snd (create_embedding_plot a)))
       = fst (paint_thread path target a)
       /\ painting_data (snd (paint_thread path target (snd (create_embedding_plot a))))
          = painting_data (snd (paint_thread path target a)).
Proof.
  intros Hlen Hfew.
  assert (Heq : create_embedding_plot a
                = (Ok tt, with_display (log a ++ [NotEnoughLabeledData]) [] a)).
  { unfold create_embedding_plot, mask_index. py_unfold. simpl.
    rewrite !length_map, Hlen, !Nat.eqb_refl.
    rewrite length_select_labelled by done.
    by rewrite (proj2 (Nat.ltb_lt _ _) Hfew). }
  rewrite Heq. simpl. repeat split; try done; apply paint_thread_display.
Qed.

(** The coordinates kept for the plot are the rows of the grid built with
    the x extent first, selected by the label mask. *)
Lemma filtered_coords_of_rebuild a :
  length (fv_rows (feature_data_tomotwin a)) = length (data (painting_data a)) ->
  fv_wf (feature_data_tomotwin a) ->
  2 <= labelled_count (painting_data a) ->
  filtered_coords (snd (create_embedding_plot a))
  = Some (select (map (fun l => (0 <? l)%Z) (data (painting_data a)))
                 (ndindex (rev3 (fv_shape (feature_data_tomotwin a))))).
Proof.
  intros Hlen Hwf Hmany.
  unfold create_embedding_plot, mask_index. py_unfold. simpl.
  rewrite !length_map, Hlen, !Nat.eqb_refl.
  rewrite length_select_labelled by done.
  rewrite (proj2 (Nat.ltb_ge _ _) Hmany).
  destruct (fv_shape (feature_data_tomotwin a)) as [[z_dim y_dim] x_dim] eqn:Hs.
  change (meshgrid_ij_rows x_dim y_dim z_dim) with (ndindex (x_dim, y_dim, z_dim)).
  rewrite NpFacts.length_ndindex.
  replace (size (x_dim, y_dim, z_dim)) with (length (data (painting_data a))).
  - by rewrite Nat.eqb_refl.
  - rewrite <- Hlen, Hwf, Hs. simpl. lia.
Qed.

End Embedding.

Lemma too_few_labelled_voxels_keep_projection_witness :
  pls Float64.one_label_left = Some tt
  /\ fst (create_embedding_plot Float64.one_label_left) = Ok tt
  /\ log (snd (create_embedding_plot Float64.one_label_left))
     = log Float64.one_label_left ++ [NotEnoughLabeledData]
  /\ pls (snd (create_embedding_plot Float64.one_label_left)) = Some tt.
Proof.
  split; [vm_compute; reflexivity|].
  assert (Hlen : length (fv_rows (feature_data_tomotwin Float64.one_label_left))
                 = length (data (painting_data Float64.one_label_left)))
    by (vm_compute; reflexivity).
  assert (Hfew : labelled_count (painting_data Float64.one_label_left) < 2)
    by (vm_compute; lia).
  destruct (too_few_labelled_voxels_keep_projection Float64.one_label_left
              Hlen Hfew) as (H1 & H2 & H3 & _).
  split; [exact H1|]. split; [exact H2|].
  rewrite H3. vm_compute. reflexivity.
Defined.

(** C7, the behaviour of the code: in a volume of shape (z, y, x) = (1, 2, 3)
    the voxels (0, 0, 1) and (0, 0, 2) are labelled; the coordinates kept
    for their embedding points are (0, 1, 0) and (1, 0, 0), and a click on
    the first point reports (0, 1, 0). *)
Theorem inverse_lookup_reports_wrong_voxel :
  where3 (mk_ndarray (1, 2, 3)
            (map (fun l => (0 <? l)%Z) (data (painting_data Float64.slab))))
  = [(0, 0, 1); (0, 0, 2)]
  /\ pls_embedding Float64.slab = Some [(1, 1); (2, 2)]%float
  /\ filtered_coords Float64.slab = Some [(0, 1, 0); (1, 0, 0)]
  /\ log (snd (onclick 1%float 1%float Float64.slab)) = [Clicked (0, 1, 0)].
Proof. repeat split; vm_compute; reflexivity. Qed.

(* ===================================================================== *)
(** * The published prediction *)
(* ===================================================================== *)

Section Published.
Context {F : Type} {E : External F}.
Implicit Types a : @CellCanvasApp F E.

Lemma unique_spec (l : list Z) :
  Sorted Z.le (unique l) /\ NoDup (unique l) /\ forall v, v ∈ unique l <-> v ∈ l.
Proof.
  unfold unique. split; [|split].
  - apply Sorted_merge_sort. intros x y. lia.
  - rewrite merge_sort_Permutation. apply NoDup_remove_dups.
  - intros v. rewrite merge_sort_Permutation. apply elem_of_remove_dups.
Qed.

(** What a returning prediction worker publishes. *)
Lemma prediction_returns a w (f : feature_volume F) q (m : Model) :
  workers a !! w = Some (mk_worker (PredictJob f) q true) ->
  model a = Some m ->
  fv_wf f ->
  length (clf_predict m (fv_rows f)) = length (fv_rows f) ->
  prediction_data (step a (WorkerReturns w))
  = mk_ndarray (fv_shape f) (map (fun c => (c + 1)%Z) (clf_predict m (fv_rows f)))
  /\ prediction_labels (step a (WorkerReturns w))
     = Some (unique (map (fun c => (c + 1)%Z) (clf_predict m (fv_rows f))))
  /\ prediction_counts (step a (WorkerReturns w))
     = Some (map (fun v => count v (map (fun c => (c + 1)%Z) (clf_predict m (fv_rows f))))
                 (unique (map (fun c => (c + 1)%Z) (clf_predict m (fv_rows f))))).
Proof.
  intros Hw Hm Hwf Hlen.
  unfold step, handle, worker_returns, run_worker, prediction_thread, predict,
    predict_segmenter, reshape, unique_counts.
  py_unfold. rewrite Hw, Hm. simpl.
  rewrite Hlen, Nat.eqb_refl. simpl. rewrite Hlen, Hwf, Nat.eqb_refl. simpl.
  unfold on_prediction_completed. py_unfold. simpl.
  rewrite NpFacts.transpose_involutive; [done|].
  unfold wf. simpl. by rewrite length_map, Hlen.
Qed.


End Published.


(* ===================================================================== *)
(** * What each event handler leaves alone *)
(* ===================================================================== *)

Section Frames.
Context {F : Type} {E : External F}.
Implicit Types a : @CellCanvasApp F E.

Lemma for_each_inv {A} (P : CellCanvasApp -> Prop)
    (body : A -> M CellCanvasApp unit) (xs : list A) a :
  P a -> (forall x s, P s -> P (snd (body x s))) -> P (snd (for_each xs body a)).
Proof.
  intros Ha Hbody. revert a Ha. induction xs as [|x xs IH]; intros a Ha; [done|].
  simpl. unfold bind. pose proof (Hbody x a Ha) as Hx.
  destruct (body x a) as [[[]|e] a1]; simpl in *; [by apply IH | done].
Qed.

Lemma alter_last {A} (f : A -> A) (ws : list A) (x : A) :
  alter f (length ws) (ws ++ [x]) = ws ++ [f x].
Proof.
  induction ws as [|y ws IH]; [done|].
  change (y :: alter f (length ws) (ws ++ [x]) = y :: (ws ++ [f x])).
  by rewrite IH.
Qed.

Lemma write_painting_frame i v a :
  jobs (snd (write_painting i v a)) = jobs a
  /\ results (snd (write_painting i v a)) = results a
  /\ volumes (snd (write_painting i v a)) = volumes a.
Proof.
  unfold write_painting, setitem, volumes. py_unfold.
  destruct (in_bounds (shape (painting_data a)) i); simpl; [|done].
  by rewrite length_insert.
Qed.

Lemma paint_thread_frame (path : Path) (target : Z) a :
  jobs (snd (paint_thread path target a)) = jobs a
  /\ results (snd (paint_thread path target a)) = results a
  /\ volumes (snd (paint_thread path target a)) = volumes a.
Proof.
  unfold paint_thread. py_unfold.
  destruct (pls a) as [p|]; [|done].
  match goal with |- context [for_each ?xs ?body a] =>
    pose proof (for_each_inv
      (fun s => jobs s = jobs a /\ results s = results a /\ volumes s = volumes a)
      body xs a) as Hloop
  end.
  destruct Hloop as (Hj & Hr & Hv); [done| |].
  - intros n s (Hj & Hr & Hv).
    destruct (unravel_index n _) as [i|e]; simpl; [|done].
    destruct (write_painting_frame i target s) as (Hj' & Hr' & Hv').
    by rewrite Hj', Hr', Hv'.
  - destruct (for_each _ _ a) as [[[]|e] a1]; done.
Qed.

Lemma create_embedding_plot_frame a :
  jobs (snd (create_embedding_plot a)) = jobs a
  /\ results (snd (create_embedding_plot a)) = results a
  /\ volumes (snd (create_embedding_plot a)) = volumes a
  /\ painting_data (snd (create_embedding_plot a)) = painting_data a.
Proof.
  unfold create_embedding_plot. py_unfold. simpl.
  destruct (mask_index (fv_rows _) _) as [ff|e]; [|done].
  destruct (mask_index (data _) _) as [fl|e]; [|done].
  destruct (length ff <? 2); [done|].
  destruct (fv_shape (feature_data_tomotwin a)) as [[z_dim y_dim] x_dim].
  destruct (mask_index (meshgrid_ij_rows _ _ _) _) as [fc|e]; done.
Qed.

Lemma start_model_fit_frame a :
  results (snd (start_model_fit a)) = results a
  /\ volumes (snd (start_model_fit a)) = volumes a
  /\ painting_data (snd (start_model_fit a)) = painting_data a
  /\ exists mt,
      jobs (snd (start_model_fit a))
      = (after_quit (model_fit_worker a) (workers a)
           ++ [mk_worker (FitJob mt (feature_data_tomotwin a) (painting_data a))
                         false true],
         Some (length (workers a)), prediction_worker a).
Proof.
  unfold start_model_fit, prepare_data_for_model, get_model_type, quit,
    create_worker, start, jobs, after_quit.
  py_unfold.
  destruct (model_fit_worker a) as [w|]; simpl;
    destruct (model_type a) as [[|c t]|]; simpl;
    rewrite ?alter_last, ?length_alter;
    (split; [done|]); (split; [done|]); (split; [done|]);
    eexists; reflexivity.
Qed.

Lemma start_prediction_jobs a :
  results (snd (start_prediction a)) = results a
  /\ volumes (snd (start_prediction a)) = volumes a
  /\ (jobs (snd (start_prediction a))
      = (after_quit (prediction_worker a) (workers a),
         model_fit_worker a, prediction_worker a)
      \/ exists f,
          jobs (snd (start_prediction a))
          = (after_quit (prediction_worker a) (workers a)
               ++ [mk_worker (PredictJob f) false true],
             model_fit_worker a, Some (length (workers a)))).
Proof.
  unfold start_prediction, get_features, quit, create_worker, start, jobs, after_quit.
  py_unfold.
  destruct (prediction_worker a) as [w|] eqn:Hpw; simpl;
    destruct (features a) as [[f|]|]; simpl;
    rewrite ?alter_last, ?length_alter, ?Hpw;
    (split; [done|]); (split; [done|]);
    try (left; reflexivity);
    right; eexists; reflexivity.
Qed.

Lemma on_model_fit_completed_frame (m : option Model) a :
  model (snd (on_model_fit_completed m a)) = m
  /\ jobs (snd (on_model_fit_completed m a)) = jobs a
  /\ volumes (snd (on_model_fit_completed m a)) = volumes a
  /\ painting_data (snd (on_model_fit_completed m a)) = painting_data a
  /\ prediction_data (snd (on_model_fit_completed m a)) = prediction_data a
  /\ prediction_labels (snd (on_model_fit_completed m a)) = prediction_labels a
  /\ prediction_counts (snd (on_model_fit_completed m a)) = prediction_counts a.
Proof.
  unfold on_model_fit_completed. py_unfold. simpl.
  destruct (live_pred_checkbox (the_widget a) && bool_decide (is_Some m)); done.
Qed.

Lemma worker_returns_frame w a :
  jobs (step a (WorkerReturns w)) = jobs a
  /\ volumes (step a (WorkerReturns w)) = volumes a
  /\ painting_data (step a (WorkerReturns w)) = painting_data a.
Proof.
  unfold step, handle, worker_returns. py_unfold.
  destruct (workers a !! w) as [[[mt f l|f] q [|]]|] eqn:Hw; try done.
  - unfold run_worker, model_fit_thread.
    destruct (update_model_pure l f mt) as (r & msgs & H). rewrite H.
    destruct r as [m|e]; [|done].
    destruct (on_model_fit_completed_frame m (set_log (log a ++ msgs) a))
      as (_ & Hj & Hv & Hp & _).
    by rewrite Hj, Hv, Hp.
  - unfold run_worker, prediction_thread, predict. py_unfold.
    destruct (predict_segmenter _ _) as [flat|e]; [|done]. simpl.
    destruct (reshape _ _) as [shaped|e]; done.
Qed.

Lemma label_mutation_frame a e :
  is_label_mutation e = true ->
  jobs (step a e) = jobs a /\ results (step a e) = results a
  /\ volumes (step a e) = volumes a.
Proof.
  destruct e as [i v| | | |w|path]; try done; intros _; unfold step, handle.
  - apply write_painting_frame.
  - destruct (create_embedding_plot_frame a) as (? & ? & ? & _). done.
  - unfold update_painting_layer. py_unfold. apply paint_thread_frame.
Qed.

Lemma step_volumes a e : volumes (step a e) = volumes a.
Proof.
  destruct e as [i v| | | |w|path].
  - by apply (label_mutation_frame a (Paint i v)).
  - by apply (label_mutation_frame a DataChanged).
  - unfold step, handle. by destruct (start_model_fit_frame a) as (_ & ? & _).
  - unfold step, handle. by destruct (start_prediction_jobs a) as (_ & ? & _).
  - by destruct (worker_returns_frame w a) as (_ & ? & _).
  - by apply (label_mutation_frame a (LassoSelected path)).
Qed.

End Frames.

(* ===================================================================== *)
(** * Invariants of the event loop *)
(* ===================================================================== *)

Section Invariants.
Context {F : Type} {E : External F}.
Implicit Types a : @CellCanvasApp F E.

Lemma single_flight_jobs a a' :
  jobs a' = jobs a -> single_flight a -> single_flight a'.
Proof.
  unfold jobs. intros Hj Hsf i w Hi. injection Hj as Hws Hmf Hpw.
  rewrite Hws in Hi. destruct (Hsf i w Hi) as [Hst Hcur].
  split; [done|]. intros Hq. specialize (Hcur Hq).
  unfold current_of_kind in *. destruct (w_job w); congruence.
Qed.

(** A worker of the list after a quit request is the old worker at that
    position, possibly with the request recorded. *)
Lemma lookup_after_quit (h : option nat) (ws : list (worker F)) i w :
  after_quit h ws !! i = Some w ->
  exists w0, ws !! i = Some w0 /\ w_job w = w_job w0 /\ w_started w = w_started w0
             /\ (w_abort_requested w = false ->
                 w_abort_requested w0 = false /\ h <> Some i).
Proof.
  unfold after_quit. destruct h as [k|].
  - destruct (decide (k = i)) as [->|Hne].
    + rewrite list_lookup_alter_eq. destruct (ws !! i) as [w0|]; [|done].
      simpl. intros [= <-]. exists w0. simpl. done.
    + rewrite list_lookup_alter_ne by done. intros Hw. exists w.
      split; [done|]. split; [done|]. split; [done|].
      intros Hq. split; [done|]. congruence.
  - intros Hw. exists w. done.
Qed.

Lemma single_flight_after_fit_request a a' j :
  is_fit_job (mk_worker j false true) = true ->
  jobs a' = (after_quit (model_fit_worker a) (workers a) ++ [mk_worker j false true],
             Some (length (workers a)), prediction_worker a) ->
  single_flight a -> single_flight a'.
Proof.
  unfold jobs. intros Hfit Hj Hsf i w Hi. injection Hj as Hws Hmf Hpw.
  rewrite Hws in Hi.
  assert (Hlen : length (after_quit (model_fit_worker a) (workers a))
                 = length (workers a)).
  { unfold after_quit. destruct (model_fit_worker a); [apply length_alter | done]. }
  apply lookup_app_Some in Hi as [Hi|[Hge Hi]].
  - apply lookup_after_quit in Hi as (w0 & Hw0 & Hjob & Hst & Hab).
    destruct (Hsf i w0 Hw0) as [Hst0 Hcur0]. split; [congruence|].
    intros Hq. destruct (Hab Hq) as [Hq0 Hne]. specialize (Hcur0 Hq0).
    unfold current_of_kind in *. rewrite Hjob.
    destruct (w_job w0); [congruence | congruence].
  - rewrite Hlen in Hge, Hi. apply list_lookup_singleton_Some in Hi as [Hi <-].
    split; [done|]. intros _. unfold current_of_kind, is_fit_job in *. simpl in *.
    destruct j; [|done]. rewrite Hmf. f_equal. lia.
Qed.

Lemma single_flight_after_prediction_request a a' :
  jobs a' = (after_quit (prediction_worker a) (workers a),
             model_fit_worker a, prediction_worker a)
  \/ (exists f,
       jobs a' = (after_quit (prediction_worker a) (workers a)
                    ++ [mk_worker (PredictJob f) false true],
                  model_fit_worker a, Some (length (workers a)))) ->
  single_flight a -> single_flight a'.
Proof.
  unfold jobs.
  assert (Hlen : length (after_quit (prediction_worker a) (workers a))
                 = length (workers a)).
  { unfold after_quit. destruct (prediction_worker a); [apply length_alter | done]. }
  intros [Hj|[f Hj]] Hsf i w Hi; injection Hj as Hws Hmf Hpw; rewrite Hws in Hi.
  - apply lookup_after_quit in Hi as (w0 & Hw0 & Hjob & Hst & Hab).
    destruct (Hsf i w0 Hw0) as [Hst0 Hcur0]. split; [congruence|].
    intros Hq. destruct (Hab Hq) as [Hq0 Hne]. specialize (Hcur0 Hq0).
    unfold current_of_kind in *. rewrite Hjob.
    destruct (w_job w0); congruence.
  - apply lookup_app_Some in Hi as [Hi|[Hge Hi]].
    + apply lookup_after_quit in Hi as (w0 & Hw0 & Hjob & Hst & Hab).
      destruct (Hsf i w0 Hw0) as [Hst0 Hcur0]. split; [congruence|].
      intros Hq. destruct (Hab Hq) as [Hq0 Hne]. specialize (Hcur0 Hq0).
      unfold current_of_kind in *. rewrite Hjob.
      destruct (w_job w0); congruence.
    + rewrite Hlen in Hge, Hi. apply list_lookup_singleton_Some in Hi as [Hi <-].
      split; [done|]. intros _. unfold current_of_kind. simpl.
      rewrite Hpw. f_equal. lia.
Qed.

Lemma single_flight_step a e : single_flight a -> single_flight (step a e).
Proof.
  intros Hsf. destruct e as [i v| | | |w|path].
  - eapply single_flight_jobs; [|done].
    by apply (label_mutation_frame a (Paint i v)).
  - eapply single_flight_jobs; [|done].
    by apply (label_mutation_frame a DataChanged).
  - unfold step, handle.
    destruct (start_model_fit_frame a) as (_ & _ & _ & mt & Hj).
    exact (single_flight_after_fit_request a _
             (FitJob mt (feature_data_tomotwin a) (painting_data a)) eq_refl Hj Hsf).
  - unfold step, handle.
    destruct (start_prediction_jobs a) as (_ & _ & Hj).
    exact (single_flight_after_prediction_request a _ Hj Hsf).
  - eapply single_flight_jobs; [|done]. apply worker_returns_frame.
  - eapply single_flight_jobs; [|done].
    by apply (label_mutation_frame a (LassoSelected path)).
Qed.

Lemma single_flight_run es a : single_flight a -> single_flight (run_events es a).
Proof.
  revert a. induction es as [|e es IH]; intros a Hsf; [done|].
  simpl. apply IH. by apply single_flight_step.
Qed.

Lemma init_has_no_worker (fd : feature_volume F) (p pr : ndarray Z) (w : widget) :
  jobs (init fd p pr w) = ([], None, None)
  /\ results (init fd p pr w) = (None, pr, None, None).
Proof.
  unfold init. destruct (create_embedding_plot_frame (blank fd p pr w))
    as (Hj & Hr & _). by rewrite Hj, Hr.
Qed.

(** X1: single flight as the code implements it.  Whatever events happen
    after start-up, every worker ever created was started, every worker
    that was not asked to quit is the one the application currently holds
    for its kind, and so at most one fit worker and at most one prediction
    worker is without a quit request. *)
Theorem at_most_one_worker_per_kind_without_quit_request
    (fd : feature_volume F) (p pr : ndarray Z) (w : widget) (es : list event) :
  single_flight (run_events es (init fd p pr w))
  /\ forall i j wi wj,
       workers (run_events es (init fd p pr w)) !! i = Some wi ->
       workers (run_events es (init fd p pr w)) !! j = Some wj ->
       w_abort_requested wi = false -> w_abort_requested wj = false ->
       is_fit_job wi = is_fit_job wj ->
       i = j.
Proof.
  assert (Hsf : single_flight (run_events es (init fd p pr w))).
  { apply single_flight_run. intros i x Hi.
    destruct (init_has_no_worker fd p pr w) as [Hj _].
    unfold jobs in Hj. injection Hj as Hws _ _. by rewrite Hws in Hi. }
  split; [exact Hsf|].
  intros i j wi wj Hi Hj Hqi Hqj Hkind.
  destruct (Hsf i wi Hi) as [_ Hci]. destruct (Hsf j wj Hj) as [_ Hcj].
  specialize (Hci Hqi). specialize (Hcj Hqj).
  unfold current_of_kind, is_fit_job in *.
  destruct (w_job wi), (w_job wj); try done; congruence.
Qed.

(** X2: changing labels never starts a job and never touches the model or
    the published prediction.  Painting a voxel, the debounced refresh
    after painting, and a lasso selection each leave the worker list, the
    two worker handles, the model, the prediction volume and the prediction
    statistics exactly as they were. *)
Theorem label_changes_start_no_job a (i : index3) (v : Z) (path : Path) :
  (jobs (step a (Paint i v)) = jobs a /\ results (step a (Paint i v)) = results a)
  /\ (jobs (step a DataChanged) = jobs a /\ results (step a DataChanged) = results a)
  /\ (jobs (step a (LassoSelected path)) = jobs a
      /\ results (step a (LassoSelected path)) = results a).
Proof.
  destruct (label_mutation_frame a (Paint i v)) as (? & ? & _); [done|].
  destruct (label_mutation_frame a DataChanged) as (? & ? & _); [done|].
  destruct (label_mutation_frame a (LassoSelected path)) as (? & ? & _); [done|].
  done.
Qed.

Lemma run_volumes es a : volumes (run_events es a) = volumes a.
Proof.
  revert a. induction es as [|e es IH]; intros a; [done|].
  simpl. by rewrite IH, step_volumes.
Qed.

(** X3: no event changes the geometry of the data.  After any sequence of
    events the feature array is the one the application was opened with,
    and the painting has the same shape and the same number of voxels; in
    particular a painting whose length matches its shape keeps doing so. *)
Theorem events_keep_the_volume_geometry (es : list event) a :
  feature_data_tomotwin (run_events es a) = feature_data_tomotwin a
  /\ shape (painting_data (run_events es a)) = shape (painting_data a)
  /\ length (data (painting_data (run_events es a)))
     = length (data (painting_data a))
  /\ (wf (painting_data a) -> wf (painting_data (run_events es a))).
Proof.
  pose proof (run_volumes es a) as Hv. unfold volumes in Hv.
  injection Hv as Hfd Hs Hl. unfold wf. rewrite Hfd, Hs, Hl. done.
Qed.

Lemma only_fit_jobs_step a e :
  is_predict_now e = false ->
  (forall i w, workers a !! i = Some w -> is_fit_job w = true) ->
  (forall i w, workers (step a e) !! i = Some w -> is_fit_job w = true)
  /\ prediction_data (step a e) = prediction_data a
  /\ prediction_labels (step a e) = prediction_labels a
  /\ prediction_counts (step a e) = prediction_counts a
  /\ prediction_worker (step a e) = prediction_worker a.
Proof.
  intros He Hfit.
  assert (Hsame : forall a', jobs a' = jobs a -> results a' = results a ->
    (forall i w, workers a' !! i = Some w -> is_fit_job w = true)
    /\ prediction_data a' = prediction_data a
    /\ prediction_labels a' = prediction_labels a
    /\ prediction_counts a' = prediction_counts a
    /\ prediction_worker a' = prediction_worker a).
  { unfold jobs, results. intros a' Hj Hr.
    injection Hj as Hws _ Hpw. injection Hr as _ Hpd Hpl Hpc.
    rewrite Hws, Hpd, Hpl, Hpc, Hpw. done. }
  destruct e as [i v| | | |w|path]; try done.
  - destruct (label_mutation_frame a (Paint i v)) as (? & ? & _); [done|]. by apply Hsame.
  - destruct (label_mutation_frame a DataChanged) as (? & ? & _); [done|]. by apply Hsame.
  - unfold step, handle.
    destruct (start_model_fit_frame a) as (Hr & _ & _ & mt & Hj).
    unfold jobs, results in *. injection Hj as Hws _ Hpw.
    injection Hr as _ Hpd Hpl Hpc. rewrite Hws, Hpd, Hpl, Hpc, Hpw.
    split; [|done]. intros i x Hi.
    apply lookup_app_Some in Hi as [Hi|[_ Hi]].
    + apply lookup_after_quit in Hi as (w0 & Hw0 & Hjob & _).
      specialize (Hfit i w0 Hw0). unfold is_fit_job in *. by rewrite Hjob.
    + by apply list_lookup_singleton_Some in Hi as [_ <-].
  - destruct (worker_returns_frame w a) as (Hj & _ & _).
    unfold jobs in Hj. injection Hj as Hws _ Hpw. rewrite Hws, Hpw.
    split; [done|].
    unfold step, handle, worker_returns. py_unfold.
    destruct (workers a !! w) as [[[mt f l|f] q [|]]|] eqn:Hw; try done.
    + unfold run_worker, model_fit_thread.
      destruct (update_model_pure l f mt) as (r & msgs & H). rewrite H.
      destruct r as [m|e]; [|done].
      destruct (on_model_fit_completed_frame m (set_log (log a ++ msgs) a))
        as (_ & _ & _ & _ & Hpd & Hpl & Hpc).
      by rewrite Hpd, Hpl, Hpc.
    + by specialize (Hfit w _ Hw).
  - destruct (label_mutation_frame a (LassoSelected path)) as (? & ? & _); [done|].
    by apply Hsame.
Qed.


End Invariants.


(* ===================================================================== *)
(** * More about fitting *)
(* ===================================================================== *)

Section FitMore.
Context {F : Type} {E : External F}.
Implicit Types a : @CellCanvasApp F E.

(** The job a fit request creates, with the model type it reads. *)
Lemma start_model_fit_job a (mt : string) :
  fst (get_model_type a) = Ok mt ->
  workers (snd (start_model_fit a)) !! length (workers a)
  = Some (mk_worker (FitJob mt (feature_data_tomotwin a) (painting_data a)) false true)
  /\ length (workers (snd (start_model_fit a))) = S (length (workers a))
  /\ features (snd (start_model_fit a)) = Some (Some (feature_data_tomotwin a))
  /\ the_widget (snd (start_model_fit a)) = the_widget a
  /\ (mt <> ""%string -> model_type (snd (start_model_fit a)) = Some mt).
Proof.
  unfold start_model_fit, prepare_data_for_model, get_model_type, quit,
    create_worker, start.
  py_unfold.
  destruct (model_fit_worker a) as [w|]; simpl;
    destruct (model_type a) as [[|c t]|] eqn:Hmt; simpl;
    intros [= <-];
    rewrite ?alter_last, ?length_alter, ?length_app, ?length_alter;
    (split; [by rewrite lookup_app_r, ?length_alter, Nat.sub_diag
                 by (rewrite ?length_alter; lia)|]);
    (split; [simpl; lia|]); (split; [done|]); (split; [done|]);
    intros Hne; rewrite ?Hmt; done.
Qed.

(** Once a model type is cached, the drop-down is not read again. *)
Lemma get_model_type_cached a (mt : string) (w' : widget) :
  model_type a = Some mt -> mt <> ""%string ->
  fst (get_model_type (set_the_widget w' a)) = Ok mt.
Proof.
  intros Hmt Hne. unfold get_model_type. py_unfold. simpl. rewrite Hmt.
  by destruct mt.
Qed.

(** X5: the model type is fixed by the first fit request.  Once a fit has
    been requested with a non-empty model type, every later fit request
    uses that same type, whatever the "Select Model" drop-down shows by
    then: the job created by the next request carries the first type. *)
Theorem model_type_is_fixed_by_first_fit_request a (mt : string) (w' : widget) :
  fst (get_model_type a) = Ok mt ->
  mt <> ""%string ->
  workers (step (set_the_widget w' (step a FitModelNow)) FitModelNow)
    !! S (length (workers a))
  = Some (mk_worker (FitJob mt (feature_data_tomotwin a) (painting_data a))
                    false true).
Proof.
  intros Hmt Hne. unfold step at 1 2, handle.
  destruct (start_model_fit_job a mt Hmt) as (_ & Hlen & _ & _ & Hcached).
  specialize (Hcached Hne).
  destruct (start_model_fit_frame a) as (_ & Hv & Hp & _).
  unfold volumes in Hv. injection Hv as Hfd _ _.
  pose proof (get_model_type_cached (snd (start_model_fit a)) mt w' Hcached Hne) as Hmt2.
  destruct (start_model_fit_job (set_the_widget w' (snd (start_model_fit a))) mt Hmt2)
    as (Hjob & _).
  change (workers (set_the_widget w' (snd (start_model_fit a))))
    with (workers (snd (start_model_fit a))) in Hjob.
  rewrite Hlen in Hjob. rewrite Hjob.
  change (feature_data_tomotwin (set_the_widget w' (snd (start_model_fit a))))
    with (feature_data_tomotwin (snd (start_model_fit a))).
  change (painting_data (set_the_widget w' (snd (start_model_fit a))))
    with (painting_data (snd (start_model_fit a))).
  by rewrite Hfd, Hp.
Qed.

(** X6: the outcomes of [update_model] on bad input.  When the number of
    feature rows differs from the number of labels it raises [IndexError];
    when no label is greater than 0 it logs that there are no labels and
    returns [None], whatever the model type; with labels and a model type
    that is neither "Random Forest" nor "XGBoost" it raises [ValueError].
    In each case nothing but the log changes. *)
Theorem update_model_outcomes_on_bad_input
    (l : ndarray Z) (f : feature_volume F) (mt : string) a :
  (length (fv_rows f) <> length (data l) ->
   update_model l f mt a = (Raise IndexError, a))
  /\ (length (fv_rows f) = length (data l) ->
      labelled_samples (fv_rows f) (data l) = [] ->
      update_model l f mt a = (Ok None, set_log (log a ++ [NoLabelsPresent]) a))
  /\ (length (fv_rows f) = length (data l) ->
      labelled_samples (fv_rows f) (data l) <> [] ->
      mt <> "Random Forest"%string -> mt <> "XGBoost"%string ->
      update_model l f mt a = (Raise ValueError, a)).
Proof.
  split; [|split].
  - intros Hne. unfold update_model, training_set, mask_index. py_unfold.
    rewrite length_map.
    destruct (length (data l) =? length (fv_rows f)) eqn:Heq; [|done].
    apply Nat.eqb_eq in Heq. congruence.
  - intros Hlen Hnone.
    pose proof (training_set_of_labelled_samples l f Hlen) as Hts.
    unfold update_model. py_unfold. rewrite Hts, Hnone. done.
  - intros Hlen Hsome Hrf Hxgb.
    pose proof (training_set_of_labelled_samples l f Hlen) as Hts.
    unfold update_model. py_unfold. rewrite Hts.
    destruct (labelled_samples (fv_rows f) (data l)) as [|s ss]; [done|]. simpl.
    rewrite (proj2 (String.eqb_neq _ _) Hrf), (proj2 (String.eqb_neq _ _) Hxgb).
    done.
Qed.


End FitMore.

Lemma model_type_is_fixed_by_first_fit_request_witness :
  workers (step (set_the_widget (mk_widget "XGBoost" false 2%Z)
                   (step Float64.two_voxels FitModelNow)) FitModelNow) !! 1
  = Some (mk_worker (FitJob "Random Forest"
                       (feature_data_tomotwin Float64.two_voxels)
                       (painting_data Float64.two_voxels)) false true).
Proof.
  apply (model_type_is_fixed_by_first_fit_request Float64.two_voxels
           "Random Forest" (mk_widget "XGBoost" false 2%Z)).
  - vm_compute. reflexivity.
  - discriminate.
Defined.


(* ===================================================================== *)
(** * More about prediction *)
(* ===================================================================== *)

Section PredictionMore.
Context {F : Type} {E : External F}.
Implicit Types a : @CellCanvasApp F E.

Lemma count_cons (v x : Z) (l : list Z) :
  count v (x :: l) = (if decide (x = v) then 1 else 0) + count v l.
Proof.
  unfold count. rewrite filter_cons. by destruct (decide (x = v)).
Qed.

Lemma sum_list_map_add {A} (f g : A -> nat) (u : list A) :
  sum_list (map (fun v => f v + g v) u) = sum_list (map f u) + sum_list (map g u).
Proof. induction u as [|v u IH]; simpl; lia. Qed.

Lemma sum_indicator (x : Z) (u : list Z) :
  NoDup u ->
  sum_list (map (fun v => if decide (x = v) then 1 else 0) u)
  = if decide (x ∈ u) then 1 else 0.
Proof.
  induction 1 as [|v u Hv Hnd IH]; cbn [map sum_list_with].
  - rewrite decide_False; [done | by intros ?%elem_of_nil].
  - rewrite IH. unfold id at 1. destruct (decide (x = v)) as [->|Hne].
    + rewrite (decide_False (P := v ∈ u)) by done.
      rewrite decide_True; [done | by left].
    + destruct (decide (x ∈ u)) as [Hin|Hin].
      * rewrite decide_True; [done | by right].
      * rewrite decide_False; [done|]. by intros [?|?]%elem_of_cons.
Qed.

(** The occurrences of the distinct values add up to the whole list. *)
Lemma sum_counts (u l : list Z) :
  NoDup u -> (forall v, v ∈ l -> v ∈ u) ->
  sum_list (map (fun v => count v l) u) = length l.
Proof.
  intros Hnd. induction l as [|x l IH]; intros Hsub.
  - induction u as [|v u IHu]; [done|]. simpl.
    rewrite IHu; [done | by inversion Hnd | by intros ? ?%elem_of_nil].
  - erewrite map_ext by (intros v; apply count_cons).
    rewrite sum_list_map_add, sum_indicator by done.
    rewrite decide_True by (apply Hsub; by left).
    rewrite IH; [done|]. intros v Hv. apply Hsub. by right.
Qed.

(** X8: a prediction that fails changes nothing.  When a prediction worker
    runs without a model, or the classifier does not return one class per
    voxel, or the feature rows do not fill the volume's shape, the worker
    raises and the application, with its prediction volume and statistics,
    is exactly as before: a result is published whole or not at all. *)
Theorem failed_prediction_changes_nothing a w (f : feature_volume F) q :
  workers a !! w = Some (mk_worker (PredictJob f) q true) ->
  model a = None
  \/ (exists m, model a = Some m
                /\ length (clf_predict m (fv_rows f)) <> length (fv_rows f))
  \/ ~ fv_wf f ->
  is_ok (fst (prediction_thread f a)) = false
  /\ step a (WorkerReturns w) = a.
Proof.
  intros Hw Hbad.
  assert (Hraise : exists e, prediction_thread f a = (Raise e, a)).
  { unfold prediction_thread, predict, predict_segmenter, reshape. py_unfold.
    destruct (model a) as [m|] eqn:Hm; [|by eexists].
    destruct (length (clf_predict m (fv_rows f)) =? length (fv_rows f)) eqn:Hlen;
      [|by eexists].
    apply Nat.eqb_eq in Hlen. simpl.
    destruct (length (clf_predict m (fv_rows f)) =? size (fv_shape f)) eqn:Hsz;
      [|by eexists].
    apply Nat.eqb_eq in Hsz. exfalso.
    destruct Hbad as [?|[(m' & [= <-] & Hne)|Hnwf]]; [done|done|].
    apply Hnwf. unfold fv_wf. congruence. }
  destruct Hraise as [e He]. split; [by rewrite He|].
  unfold step, handle, worker_returns, run_worker. py_unfold.
  by rewrite Hw, He.
Qed.


(** X10: the label shift of training is undone by prediction.  If the
    classifier predicts only classes it was fitted on, every label that
    [predict] reports is a label greater than 0 that occurs in the painting
    the training set was taken from: subtracting 1 for training and adding
    1 after prediction return to the painted label values. *)
Theorem predicted_labels_are_painted_labels
    (l : ndarray Z) (f f' : feature_volume F) a rows ls (m : Model)
    (prediction : ndarray Z) (pl : list Z) (pc : list nat) :
  training_set l f = Ok (rows, ls) ->
  (forall c, c ∈ clf_predict m (fv_rows f') -> c ∈ ls) ->
  fst (predict (Some m) f' a) = Ok (prediction, pl, pc) ->
  forall v, v ∈ pl -> v ∈ data l /\ (0 < v)%Z.
Proof.
  intros Hts Hcls Hpred v Hv.
  assert (Hls : forall c, c ∈ ls -> (c + 1)%Z ∈ data l /\ (0 < c + 1)%Z).
  { unfold training_set in Hts.
    destruct (mask_index (fv_rows f) _) as [ff|e]; [|done].
    unfold mask_index in Hts. rewrite length_map, Nat.eqb_refl in Hts.
    injection Hts as _ <-. intros c Hc.
    apply list_elem_of_In, in_map_iff in Hc as (k & <- & Hk).
    rewrite NpFacts.select_filter in Hk.
    apply list_elem_of_In, list_elem_of_filter in Hk as [Hpos Hk].
    replace (k - 1 + 1)%Z with k by lia. split; [done | by apply Z.ltb_lt]. }
  unfold predict, predict_segmenter, reshape, unique_counts in Hpred. py_unfold.
  destruct (length (clf_predict m (fv_rows f')) =? length (fv_rows f')); [|done].
  simpl in Hpred.
  destruct (length (clf_predict m (fv_rows f')) =? size (fv_shape f')); [|done].
  simpl in Hpred. injection Hpred as _ <- _.
  destruct (unique_spec (map (fun c => (c + 1)%Z) (clf_predict m (fv_rows f'))))
    as (_ & _ & Hmem).
  apply Hmem in Hv.
  apply list_elem_of_In, in_map_iff in Hv as (c & <- & Hc).
  apply Hls, Hcls. by apply list_elem_of_In.
Qed.

End PredictionMore.

Section FitThenPredict.
Context {F : Type} {E : External F}.
Implicit Types a : @CellCanvasApp F E.

Lemma fit_returns_state a w mt f l q (r : option Model) :
  workers a !! w = Some (mk_worker (FitJob mt f l) q true) ->
  fst (update_model l f mt a) = Ok r ->
  model (step a (WorkerReturns w)) = r
  /\ workers (step a (WorkerReturns w)) = workers a
  /\ features (step a (WorkerReturns w)) = features a.
Proof.
  intros Hw Hr.
  destruct (update_model_pure l f mt) as (r' & msgs & H).
  rewrite H in Hr. simpl in Hr. subst r'.
  unfold step, handle, worker_returns, run_worker, model_fit_thread.
  py_unfold. rewrite Hw, H. unfold on_model_fit_completed. py_unfold. simpl.
  destruct (live_pred_checkbox (the_widget a) && bool_decide (is_Some r)); done.
Qed.

Lemma start_prediction_job a (f : feature_volume F) :
  features a = Some (Some f) ->
  workers (snd (start_prediction a)) !! length (workers a)
  = Some (mk_worker (PredictJob f) false true)
  /\ model (snd (start_prediction a)) = model a.
Proof.
  intros Hf. unfold start_prediction, get_features, quit, create_worker, start.
  py_unfold.
  destruct (prediction_worker a) as [w|]; simpl; rewrite Hf; simpl;
    rewrite ?alter_last;
    (split; [|done]);
    by rewrite lookup_app_r, ?length_alter, Nat.sub_diag
      by (rewrite ?length_alter; lia).
Qed.

(** X11: an explicit fit followed by an explicit prediction publishes the
    prediction of the model fitted on the current painting.  From any
    state with at least one labelled voxel and the model type "Random
    Forest": after "Fit Model Now", the return of that fit worker,
    "Predict Now" and the return of that prediction worker, the prediction
    volume holds, for every voxel of the feature array, the class that the
    model fitted on the labelled voxels predicts, plus one. *)
Theorem fit_then_predict_publishes_the_fitted_model a rows ls :
  fv_wf (feature_data_tomotwin a) ->
  fst (get_model_type a) = Ok "Random Forest"%string ->
  training_set (painting_data a) (feature_data_tomotwin a) = Ok (rows, ls) ->
  ls <> [] ->
  length (clf_predict
            (RandomForestClassifier_fit
               (list_to_map (zip (unique ls) (compute_class_weight (unique ls) ls)))
               rows ls)
            (fv_rows (feature_data_tomotwin a)))
  = length (fv_rows (feature_data_tomotwin a)) ->
  prediction_data
    (run_events [FitModelNow; WorkerReturns (length (workers a));
                 PredictNow; WorkerReturns (S (length (workers a)))] a)
  = mk_ndarray (fv_shape (feature_data_tomotwin a))
      (map (fun c => (c + 1)%Z)
         (clf_predict
            (RandomForestClassifier_fit
               (list_to_map (zip (unique ls) (compute_class_weight (unique ls) ls)))
               rows ls)
            (fv_rows (feature_data_tomotwin a)))).
Proof.
  intros Hwf Hmt Hts Hne Hlen. unfold run_events. simpl.
  destruct (start_model_fit_job a _ Hmt) as (Hjob & Hn & Hfeat & _).
  change (snd (start_model_fit a)) with (step a FitModelNow) in Hjob, Hn, Hfeat.
  set (a1 := step a FitModelNow) in *.
  pose proof (update_model_fits_training_set _ _ a1 rows ls Hts Hne) as Hfit.
  destruct (fit_returns_state a1 _ _ _ _ _ _ Hjob Hfit) as (Hm2 & Hws2 & Hf2).
  set (a2 := step a1 (WorkerReturns (length (workers a)))) in *.
  rewrite Hfeat in Hf2.
  destruct (start_prediction_job a2 _ Hf2) as (Hjob3 & Hm3).
  change (snd (start_prediction a2)) with (step a2 PredictNow) in Hjob3, Hm3.
  rewrite Hws2, Hn in Hjob3. rewrite Hm2 in Hm3.
  by destruct (prediction_returns _ _ _ _ _ Hjob3 Hm3 Hwf Hlen) as (Hpd & _).
Qed.

End FitThenPredict.

Lemma failed_prediction_changes_nothing_witness :
  is_ok (fst (prediction_thread (feature_data_tomotwin Float64.two_voxels)
                (step Float64.never_fitted PredictNow))) = false
  /\ step (step Float64.never_fitted PredictNow) (WorkerReturns 1)
     = step Float64.never_fitted PredictNow.
Proof.
  apply (failed_prediction_changes_nothing (step Float64.never_fitted PredictNow)
           1 (feature_data_tomotwin Float64.two_voxels) false).
  - vm_compute. reflexivity.
  - left. vm_compute. reflexivity.
Defined.


Lemma predicted_labels_are_painted_labels_witness :
  fst (predict (Some ([0%Z] : list Z)) (feature_data_tomotwin Float64.two_voxels)
         Float64.two_voxels)
  = Ok (mk_ndarray (2, 1, 1) [1; 1]%Z, [1%Z], [2])
  /\ (1%Z : Z) ∈ [1; 0]%Z /\ (0 < 1)%Z.
Proof.
  split; [vm_compute; reflexivity|].
  apply (predicted_labels_are_painted_labels (E := Float64.libraries)
           (mk_ndarray (1, 1, 2) [1; 0]%Z)
           (feature_data_tomotwin Float64.two_voxels)
           (feature_data_tomotwin Float64.two_voxels)
           Float64.two_voxels [[0; 0]]%float [0%Z] ([0%Z] : list Z)
           (mk_ndarray (2, 1, 1) [1; 1]%Z) [1%Z] [2]).
  - vm_compute. reflexivity.
  - intros c Hc. vm_compute in Hc.
    apply list_elem_of_In in Hc. simpl in Hc.
    destruct Hc as [<-|[<-|[]]]; apply list_elem_of_In; simpl; auto.
  - vm_compute. reflexivity.
  - apply list_elem_of_In. simpl. auto.
Defined.

Lemma fit_then_predict_publishes_the_fitted_model_witness :
  prediction_data
    (run_events [FitModelNow; WorkerReturns 0; PredictNow; WorkerReturns 1]
                (step Float64.two_voxels (Paint (0, 0, 1) 2%Z)))
  = mk_ndarray (1, 1, 2) [2; 2]%Z.
Proof.
  apply (fit_then_predict_publishes_the_fitted_model
           (step Float64.two_voxels (Paint (0, 0, 1) 2%Z)) [[1; 1]]%float [1%Z]);
    try (vm_compute; reflexivity).
  discriminate.
Defined.

(* ===================================================================== *)
(** * More about the embedding plot *)
(* ===================================================================== *)

Section EmbeddingMore.
Context {F : Type} {E : External F}.
Implicit Types a : @CellCanvasApp F E.

Lemma where_flat_select {A} (f : nat -> A) (mask : list bool) :
  select mask (map f (seq 0 (length mask))) = map f (where_flat mask).
Proof. unfold where_flat. apply NpFacts.select_map. Qed.

(** X12: which coordinate the plot keeps for a labelled voxel.  After a
    successful rebuild the coordinate kept for the labelled voxel at flat
    position [n] of the volume is [n] unravelled against the reversed shape
    (x, y, z).  When the z and x extents of the volume are equal this is
    the voxel's own (z, y, x) coordinate. *)
Theorem kept_coordinates_unravel_against_reversed_shape a :
  length (fv_rows (feature_data_tomotwin a)) = length (data (painting_data a)) ->
  fv_wf (feature_data_tomotwin a) ->
  2 <= labelled_count (painting_data a) ->
  filtered_coords (snd (create_embedding_plot a))
  = Some (map (fun n => unravel n (rev3 (fv_shape (feature_data_tomotwin a))))
              (where_flat (map (fun l => (0 <? l)%Z) (data (painting_data a)))))
  /\ ((fv_shape (feature_data_tomotwin a)).1.1 = (fv_shape (feature_data_tomotwin a)).2 ->
      filtered_coords (snd (create_embedding_plot a))
      = Some (map (fun n => unravel n (fv_shape (feature_data_tomotwin a)))
                  (where_flat (map (fun l => (0 <? l)%Z) (data (painting_data a)))))).
Proof.
  intros Hlen Hwf Hmany.
  assert (Hgen : filtered_coords (snd (create_embedding_plot a))
    = Some (map (fun n => unravel n (rev3 (fv_shape (feature_data_tomotwin a))))
              (where_flat (map (fun l => (0 <? l)%Z) (data (painting_data a)))))).
  { rewrite filtered_coords_of_rebuild by done. f_equal.
    rewrite NpFacts.ndindex_unravel, NpFacts.size_rev3, <- Hwf, Hlen.
    rewrite <- (length_map (fun l => (0 <? l)%Z) (data (painting_data a))).
    apply where_flat_select. }
  split; [exact Hgen|].
  intros Hzx. rewrite Hgen.
  destruct (fv_shape (feature_data_tomotwin a)) as [[z_dim y_dim] x_dim].
  simpl in Hzx. subst x_dim. done.
Qed.


(** X14: a click reports one of the kept coordinates.  When an embedding
    with at least one point and as many kept coordinates exists, and
    [argmin] returns a position inside its argument, the click handler
    returns normally and prints the image coordinate kept at the position
    of the nearest embedding point, which is one of the kept coordinates. *)
Theorem click_reports_a_kept_coordinate a (xdata ydata : F) emb coords :
  pls_embedding a = Some emb ->
  filtered_coords a = Some coords ->
  length emb = length coords ->
  emb <> [] ->
  (forall l : list F, l <> [] -> np_argmin l < length l) ->
  exists c,
    c ∈ coords
    /\ onclick xdata ydata a = (Ok tt, set_log (log a ++ [Clicked c]) a).
Proof.
  intros Hemb Hcoords Hlen Hne Hargmin.
  unfold onclick. py_unfold. rewrite Hemb, Hcoords.
  match goal with |- context [np_argmin ?l] => set (ds := l) end.
  assert (Hlt : np_argmin ds < length coords).
  { rewrite <- Hlen, <- (length_map (fun p => np_sqrt (np_sum
        [np_square (np_sub p.1 xdata); np_square (np_sub p.2 ydata)])) emb).
    apply Hargmin. subst ds. by destruct emb. }
  apply lookup_lt_is_Some in Hlt as [c Hc]. exists c.
  split; [by eapply list_elem_of_lookup_2|]. by rewrite Hc.
Qed.

End EmbeddingMore.

Lemma float64_argmin_from_lt (l : list float) (best : float) (best_i i : nat) :
  best_i < i -> Float64.argmin_from best best_i i l < i + length l.
Proof.
  revert best best_i i. induction l as [|x l IH]; intros best best_i i Hlt; simpl.
  - lia.
  - destruct (PrimFloat.ltb x best).
    + specialize (IH x i (S i)). lia.
    + specialize (IH best best_i (S i)). lia.
Qed.

Lemma float64_argmin_lt (l : list float) : l <> [] -> Float64.argmin l < length l.
Proof.
  destruct l as [|x l]; [done|]. intros _. simpl.
  pose proof (float64_argmin_from_lt l x 0 1). lia.
Qed.

Lemma kept_coordinates_unravel_against_reversed_shape_witness :
  filtered_coords (snd (create_embedding_plot Float64Cases.square_slab))
  = Some (map (fun n => unravel n (2, 1, 2)) [1; 2]).
Proof.
  assert (H1 : length (fv_rows (feature_data_tomotwin Float64Cases.square_slab))
               = length (data (painting_data Float64Cases.square_slab)))
    by (vm_compute; reflexivity).
  assert (H2 : fv_wf (feature_data_tomotwin Float64Cases.square_slab))
    by (vm_compute; reflexivity).
  assert (H3 : 2 <= labelled_count (painting_data Float64Cases.square_slab))
    by (vm_compute; lia).
  destruct (kept_coordinates_unravel_against_reversed_shape
              Float64Cases.square_slab H1 H2 H3) as [_ Hsq].
  apply Hsq. vm_compute. reflexivity.
Defined.


Lemma click_reports_a_kept_coordinate_witness :
  exists c,
    c ∈ [(0, 1, 0); (1, 0, 0)]
    /\ onclick 2%float 2%float Float64.slab
       = (Ok tt, set_log (log Float64.slab ++ [Clicked c]) Float64.slab).
Proof.
  apply (click_reports_a_kept_coordinate Float64.slab 2%float 2%float
           [(1, 1); (2, 2)]%float [(0, 1, 0); (1, 0, 0)]).
  - vm_compute. reflexivity.
  - vm_compute. reflexivity.
  - reflexivity.
  - discriminate.
  - exact float64_argmin_lt.
Defined.

(* ===================================================================== *)
(** * Repeating a bulk update *)
(* ===================================================================== *)

Section Repeat.
Context {F : Type} {E : External F}.
Implicit Types a : @CellCanvasApp F E.

Lemma written_idempotent (s : shape3) (v : Z) (d : list Z) (idxs : list index3) :
  written s v (written s v d idxs) idxs = written s v d idxs.
Proof.
  apply list_eq. intros n.
  destruct (decide (n < length d)) as [Hn|Hn].
  - rewrite lookup_written by (by rewrite length_written).
    rewrite lookup_written by done.
    by destruct (decide (n ∈ map (fun i => ravel_multi_index i s) idxs)).
  - rewrite !lookup_ge_None_2; [done | |]; rewrite !length_written; lia.
Qed.

Lemma written_keeps_positive (s : shape3) (v : Z) (d : list Z) (idxs : list index3) n x :
  (0 < v)%Z -> d !! n = Some x -> (0 < x)%Z ->
  exists x', written s v d idxs !! n = Some x' /\ (0 < x')%Z.
Proof.
  intros Hv Hx Hpos. rewrite lookup_written by (by eapply lookup_lt_Some).
  destruct (decide (n ∈ map (fun i => ravel_multi_index i s) idxs)); eauto.
Qed.

Lemma estimate_background_keeps_features a :
  feature_data_tomotwin (snd (estimate_background a)) = feature_data_tomotwin a.
Proof.
  unfold estimate_background. py_unfold. simpl.
  match goal with |- context [for_each ?xs ?body ?s] =>
    pose proof (for_each_inv
      (fun s' => feature_data_tomotwin s' = feature_data_tomotwin a) body xs s) as Hloop
  end.
  simpl in Hloop.
  match type of Hloop with _ -> _ -> ?P => assert (Hfd : P) end.
  { apply Hloop; [done|]. intros i s Hs.
    destruct (write_painting_frame i 1%Z s) as (_ & _ & Hv).
    unfold volumes in Hv. injection Hv as Hfd _ _. congruence. }
  destruct (for_each _ _ _) as [[[]|e] a1]; done.
Qed.

(** X15: background estimation can be repeated and never unlabels.  When
    painting and feature array have the same shape, running the estimation
    a second time leaves the painting exactly as the first run left it, and
    every voxel that had a label greater than 0 before a run still has one
    after it. *)
Theorem background_estimation_is_idempotent a :
  shape (painting_data a) = fv_shape (feature_data_tomotwin a) ->
  painting_data (snd (estimate_background (snd (estimate_background a))))
  = painting_data (snd (estimate_background a))
  /\ forall n x, data (painting_data a) !! n = Some x -> (0 < x)%Z ->
       exists x', data (painting_data (snd (estimate_background a))) !! n = Some x'
                  /\ (0 < x')%Z.
Proof.
  intros Hshape.
  destruct (estimate_background_eq a Hshape) as [_ Hpd].
  pose proof (estimate_background_keeps_features a) as Hfd.
  assert (Hshape' : shape (painting_data (snd (estimate_background a)))
                    = fv_shape (feature_data_tomotwin (snd (estimate_background a)))).
  { by rewrite Hfd, Hpd. }
  destruct (estimate_background_eq _ Hshape') as [_ Hpd2].
  split.
  - rewrite Hpd2, Hfd, Hpd. simpl. by rewrite written_idempotent.
  - intros n x Hx Hpos. rewrite Hpd. simpl.
    by apply (written_keeps_positive _ _ _ _ n x).
Qed.

Lemma paint_thread_keeps_projection (path : Path) (target : Z) a :
  pls (snd (paint_thread path target a)) = pls a
  /\ feature_data_tomotwin (snd (paint_thread path target a))
     = feature_data_tomotwin a.
Proof.
  unfold paint_thread. py_unfold.
  destruct (pls a) as [p|] eqn:Hp; [|simpl; by split].
  match goal with |- context [for_each ?xs ?body a] =>
    pose proof (for_each_inv
      (fun s => pls s = pls a /\ feature_data_tomotwin s = feature_data_tomotwin a)
      body xs a) as Hloop
  end.
  destruct Hloop as [H1 H2]; [done| |].
  - intros n s [Hs1 Hs2].
    destruct (unravel_index n _) as [i|e]; simpl; [|done].
    unfold write_painting, setitem. py_unfold.
    destruct (in_bounds _ i); done.
  - rewrite Hp in H1. destruct (for_each _ _ a) as [[[]|e] a1]; done.
Qed.

(** X16: a selection can be repeated.  Under the conditions in which a
    selection succeeds, making the same selection with the same target
    label a second time, before the plot is rebuilt, leaves the painting
    exactly as the first selection left it. *)
Theorem repeated_selection_changes_nothing
    a (p : PLSRegression) (path : Path) (target : Z) :
  pls a = Some p ->
  fv_wf (feature_data_tomotwin a) ->
  shape (painting_data a) = fv_shape (feature_data_tomotwin a) ->
  length (pls_transform p (fv_rows (feature_data_tomotwin a)))
  = length (fv_rows (feature_data_tomotwin a)) ->
  fst (paint_thread path target (snd (paint_thread path target a))) = Ok tt
  /\ painting_data (snd (paint_thread path target (snd (paint_thread path target a))))
     = painting_data (snd (paint_thread path target a)).
Proof.
  intros Hpls Hwf Hshape Hlen.
  destruct (paint_thread_eq a p path target Hpls Hwf Hshape Hlen) as [_ Hpd].
  destruct (paint_thread_keeps_projection path target a) as [Hp' Hfd'].
  set (a1 := snd (paint_thread path target a)) in *.
  assert (Hpls1 : pls a1 = Some p) by congruence.
  assert (Hwf1 : fv_wf (feature_data_tomotwin a1)) by (by rewrite Hfd').
  assert (Hshape1 : shape (painting_data a1) = fv_shape (feature_data_tomotwin a1))
    by (by rewrite Hfd', Hpd).
  assert (Hlen1 : length (pls_transform p (fv_rows (feature_data_tomotwin a1)))
                  = length (fv_rows (feature_data_tomotwin a1)))
    by (by rewrite Hfd').
  destruct (paint_thread_eq a1 p path target Hpls1 Hwf1 Hshape1 Hlen1) as [Hok Hpd1].
  split; [exact Hok|].
  rewrite Hpd1, Hfd', Hpd. simpl. by rewrite written_idempotent.
Qed.

End Repeat.

Lemma background_estimation_is_idempotent_witness :
  painting_data (snd (estimate_background (snd (estimate_background Float64.spread_field))))
  = mk_ndarray (1, 1, 3) [3; 1; 0]%Z.
Proof.
  assert (Hshape : shape (painting_data Float64.spread_field)
                   = fv_shape (feature_data_tomotwin Float64.spread_field))
    by (vm_compute; reflexivity).
  destruct (background_estimation_is_idempotent Float64.spread_field Hshape)
    as [Hidem _].
  rewrite Hidem. vm_compute. reflexivity.
Defined.

Lemma repeated_selection_changes_nothing_witness :
  painting_data (snd (paint_thread Float64.big_square 2%Z
                        (snd (paint_thread Float64.big_square 2%Z
                                Float64.two_labelled_one_not))))
  = mk_ndarray (1, 1, 3) [2; 2; 2]%Z.
Proof.
  assert (H1 : pls Float64.two_labelled_one_not = Some tt)
    by (vm_compute; reflexivity).
  assert (H2 : fv_wf (feature_data_tomotwin Float64.two_labelled_one_not))
    by (vm_compute; reflexivity).
  assert (H3 : shape (painting_data Float64.two_labelled_one_not)
               = fv_shape (feature_data_tomotwin Float64.two_labelled_one_not))
    by (vm_compute; reflexivity).
  assert (H4 : length (pls_transform tt
                 (fv_rows (feature_data_tomotwin Float64.two_labelled_one_not)))
               = length (fv_rows (feature_data_tomotwin Float64.two_labelled_one_not)))
    by (vm_compute; reflexivity).
  destruct (repeated_selection_changes_nothing Float64.two_labelled_one_not tt
              Float64.big_square 2%Z H1 H2 H3 H4) as [_ Hsame].
  rewrite Hsame. vm_compute. reflexivity.
Defined.

(* ===================================================================== *)
(** * The "Estimate Background" button and the legend *)
(* ===================================================================== *)


Lemma legend_add_mapping (sel : Z) (m : gmap Z string) (ed : gmap Z legend_entry)
    (x id : Z) :
  (legend_add sel (m, ed) x).1 !! id
  = if decide (id = x)
    then Some (default ("Class " +:+ pretty x)%string (m !! x))
    else m !! id.
Proof.
  unfold legend_add. simpl. destruct (decide (id = x)) as [->|Hne].
  - destruct (m !! x) as [n|] eqn:Hx; simpl; [done|]. by rewrite lookup_insert_eq.
  - destruct (m !! x) as [n|] eqn:Hx; simpl; [done|]. by rewrite lookup_insert_ne.
Qed.

Lemma legend_add_edits (sel : Z) (m : gmap Z string) (ed : gmap Z legend_entry)
    (x id : Z) :
  (legend_add sel (m, ed) x).2 !! id
  = if decide (id = x)
    then Some (mk_entry (default ("Class " +:+ pretty x)%string (m !! x))
                        (bool_decide (x = sel)))
    else ed !! id.
Proof.
  unfold legend_add. simpl. destruct (decide (id = x)) as [->|Hne].
  - rewrite lookup_insert_eq.
    destruct (m !! x) as [n|] eqn:Hx; simpl; [by rewrite Hx|].
    by rewrite lookup_insert_eq.
  - by rewrite lookup_insert_ne.
Qed.

(** The loop of [setupLegend], label by label. *)
Lemma legend_fold (sel : Z) (ls : list Z) (m : gmap Z string)
    (ed : gmap Z legend_entry) (id : Z) :
  (id ∉ ls ->
   (foldl (legend_add sel) (m, ed) ls).1 !! id = m !! id
   /\ (foldl (legend_add sel) (m, ed) ls).2 !! id = ed !! id)
  /\ (id ∈ ls ->
      (foldl (legend_add sel) (m, ed) ls).1 !! id
      = Some (default ("Class " +:+ pretty id)%string (m !! id))
      /\ (foldl (legend_add sel) (m, ed) ls).2 !! id
         = Some (mk_entry (default ("Class " +:+ pretty id)%string (m !! id))
                          (bool_decide (id = sel)))).
Proof.
  revert m ed. induction ls as [|x ls IH]; intros m ed.
  - split; [done | by intros ?%elem_of_nil].
  - cbn [foldl]. destruct (legend_add sel (m, ed) x) as [mx edx] eqn:Hadd.
    pose proof (legend_add_mapping sel m ed x id) as Hm.
    pose proof (legend_add_edits sel m ed x id) as He.
    rewrite Hadd in Hm, He. simpl in Hm, He.
    destruct (IH mx edx) as [IHout IHin]. split.
    + intros Hnot. apply not_elem_of_cons in Hnot as [Hne Hnot].
      destruct (IHout Hnot) as [H1 H2]. rewrite H1, H2, Hm, He.
      by rewrite !decide_False by done.
    + intros Hin. destruct (decide (id ∈ ls)) as [Hls|Hls].
      * destruct (IHin Hls) as [H1 H2]. rewrite H1, H2, Hm.
        destruct (decide (id = x)) as [->|Hne]; done.
      * apply elem_of_cons in Hin as [->|Hin]; [|done].
        destruct (IHout Hls) as [H1 H2]. rewrite H1, H2, Hm, He.
        by rewrite !decide_True by done.
Qed.

(** After a rebuild, a label's name is the old name or the default one, and
    a listed label's entry shows it. *)
Lemma legend_after_rebuild_aux (ls : list Z) (sel : Z) (w : Legend) (id : Z) :
  exists m',
    class_labels_mapping (setupLegend (Some ls) sel w) = Some m'
    /\ (m' !! id = Some (default ("Class " +:+ pretty id)%string
                                 (default ∅ (class_labels_mapping w) !! id))
        \/ m' !! id = default ∅ (class_labels_mapping w) !! id)
    /\ (default ∅ (class_labels_mapping w) !! id <> None ->
        m' !! id = default ∅ (class_labels_mapping w) !! id)
    /\ (id ∈ ls ->
        label_edits (setupLegend (Some ls) sel w) !! id
        = Some (mk_entry (default ("Class " +:+ pretty id)%string
                                  (default ∅ (class_labels_mapping w) !! id))
                         (bool_decide (id = sel)))).
Proof.
  unfold setupLegend.
  destruct (foldl (legend_add sel) (default ∅ (class_labels_mapping w), ∅) ls)
    as [m' ed'] eqn:Hfold.
  exists m'. split; [done|]. simpl.
  destruct (legend_fold sel ls (default ∅ (class_labels_mapping w)) ∅ id)
    as [Hout Hin].
  rewrite Hfold in Hout, Hin. simpl in Hout, Hin.
  destruct (decide (id ∈ ls)) as [Hls|Hls].
  - destruct (Hin Hls) as [H1 H2]. split; [by left|]. split; [|done].
    intros Hsome. rewrite H1.
    destruct (default ∅ (class_labels_mapping w) !! id); done.
  - destruct (Hout Hls) as [H1 H2]. split; [by right|]. split; done.
Qed.

(** X18: what the legend shows after it is rebuilt.  After [setupLegend]
    for a list of active labels, the legend has an entry for exactly those
    labels; the entry of a label shows the name the mapping already had for
    it, or "Class <label>" for a label without a name; the entry of the
    selected label, and no other, is highlighted; names of labels that are
    not active stay in the mapping. *)
Theorem legend_after_rebuild (ls : list Z) (sel : Z) (w : Legend) :
  exists m',
    class_labels_mapping (setupLegend (Some ls) sel w) = Some m'
    /\ (forall id, id ∈ ls ->
          m' !! id = Some (default ("Class " +:+ pretty id)%string
                                   (default ∅ (class_labels_mapping w) !! id))
          /\ label_edits (setupLegend (Some ls) sel w) !! id
             = Some (mk_entry (default ("Class " +:+ pretty id)%string
                                       (default ∅ (class_labels_mapping w) !! id))
                              (bool_decide (id = sel))))
    /\ (forall id, id ∉ ls ->
          m' !! id = default ∅ (class_labels_mapping w) !! id
          /\ label_edits (setupLegend (Some ls) sel w) !! id = None).
Proof.
  unfold setupLegend.
  destruct (foldl (legend_add sel) (default ∅ (class_labels_mapping w), ∅) ls)
    as [m' ed'] eqn:Hfold.
  exists m'. split; [done|]. simpl. split.
  - intros id Hin.
    destruct (legend_fold sel ls (default ∅ (class_labels_mapping w)) ∅ id)
      as [_ H]. specialize (H Hin). by rewrite Hfold in H.
  - intros id Hnot.
    destruct (legend_fold sel ls (default ∅ (class_labels_mapping w)) ∅ id)
      as [H _]. specialize (H Hnot). rewrite Hfold in H. simpl in H.
    by rewrite lookup_empty in H.
Qed.

(** X19: a class name typed by the user survives rebuilds of the legend.
    After the user edits the name of a label in the legend, every later
    legend that lists the label shows the typed name, also when a legend
    built in between did not list the label. *)
Theorem renamed_class_survives_rebuilds
    (w : Legend) (m : gmap Z string) (id : Z) (name : string) :
  class_labels_mapping w = Some m ->
  is_Some (label_edits w !! id) ->
  exists w1,
    edit_label id name w = Ok w1
    /\ forall ls1 sel1 ls2 sel2, id ∈ ls2 ->
         label_edits (setupLegend (Some ls2) sel2 (setupLegend (Some ls1) sel1 w1)) !! id
         = Some (mk_entry name (bool_decide (id = sel2))).
Proof.
  intros Hm [e He].
  set (w1 := mk_legend (Some (<[id := name]> m))
               (<[id := mk_entry name (entry_highlighted e)]> (label_edits w))).
  exists w1. split.
  { unfold edit_label, updateClassLabelName. rewrite He. simpl. by rewrite Hm. }
  intros ls1 sel1 ls2 sel2 Hin.
  destruct (legend_after_rebuild_aux ls1 sel1 w1 id) as (m1 & Hm1 & _ & Hkeep1 & _).
  destruct (legend_after_rebuild_aux ls2 sel2 (setupLegend (Some ls1) sel1 w1) id)
    as (m2 & Hm2 & _ & _ & Hedit2).
  assert (Hname : default ∅ (class_labels_mapping w1) !! id = Some name).
  { subst w1. simpl. by rewrite lookup_insert_eq. }
  rewrite (Hedit2 Hin), Hm1. simpl.
  rewrite Hkeep1 by (by rewrite Hname). by rewrite Hname.
Qed.

Lemma renamed_class_survives_rebuilds_witness :
  exists w1,
    edit_label 1%Z "mito" (setupLegend (Some [0; 1]%Z) 1%Z new_legend) = Ok w1
    /\ label_edits (setupLegend (Some [0; 1; 2]%Z) 2%Z
                                (setupLegend (Some [0%Z]) 0%Z w1)) !! 1%Z
       = Some (mk_entry "mito" false).
Proof.
  destruct (legend_after_rebuild_aux [0; 1]%Z 1%Z new_legend 1%Z)
    as (m & Hm & _ & _ & Hed).
  assert (Hin : (1%Z : Z) ∈ [0; 1]%Z) by (apply list_elem_of_In; simpl; auto).
  assert (Hsome : is_Some (label_edits (setupLegend (Some [0; 1]%Z) 1%Z new_legend)
                             !! 1%Z))
    by (rewrite (Hed Hin); eauto).
  destruct (renamed_class_survives_rebuilds
              (setupLegend (Some [0; 1]%Z) 1%Z new_legend) m 1%Z "mito" Hm Hsome)
    as (w1 & Hedit & Hlater).
  exists w1. split; [exact Hedit|].
  rewrite (Hlater [0%Z] 0%Z [0; 1; 2]%Z 2%Z); [done|].
  apply list_elem_of_In. simpl. auto.
Defined.

(** X20: changing the selected label re-highlights the legend as a rebuild
    would.  After [updateLegendHighlighting] for a newly selected label,
    the legend's entries are exactly those that [setupLegend] would build
    for the same active labels with the new selection: the same names, and
    the highlight on the newly selected label only. *)
Theorem rehighlighting_agrees_with_rebuild (ls : list Z) (sel current : Z) (w : Legend) :
  label_edits (updateLegendHighlighting current (setupLegend (Some ls) sel w))
  = label_edits (setupLegend (Some ls) current w).
Proof.
  apply map_eq. intros id. unfold updateLegendHighlighting. cbn [label_edits].
  rewrite map_lookup_imap.
  destruct (legend_after_rebuild_aux ls sel w id) as (m1 & _ & _ & _ & Hin1).
  destruct (legend_after_rebuild_aux ls current w id) as (m2 & _ & _ & _ & Hin2).
  destruct (decide (id ∈ ls)) as [Hls|Hls].
  - by rewrite (Hin1 Hls), (Hin2 Hls).
  - unfold setupLegend.
    destruct (legend_fold sel ls (default ∅ (class_labels_mapping w)) ∅ id)
      as [Hout1 _].
    destruct (legend_fold current ls (default ∅ (class_labels_mapping w)) ∅ id)
      as [Hout2 _].
    destruct (Hout1 Hls) as [_ H1]. destruct (Hout2 Hls) as [_ H2].
    destruct (foldl (legend_add sel) _ ls) as [ma ea].
    destruct (foldl (legend_add current) _ ls) as [mb eb].
    simpl in *. by rewrite H1, H2.
Qed.
